(** * Webhook delivery subsystem of the business-card extractor

    A shallow embedding of [backend/src/services/webhookService.js]
    (class [WebhookService]), of the [PUT /webhook] handler of
    [backend/src/routes/config.js], of the [WebhookConfig] model and of
    the call in [backend/src/routes/cards.js], followed by the properties
    of the delivery pipeline.

    Part I holds the embedding, Part II the notions the statements are
    written with and the worked scenarios, Part III the proofs. *)

From Stdlib Require Import ZArith QArith Qround Lia Ascii String.
From stdpp Require Import base option list strings pretty gmap.

Open Scope Z_scope.

(** * Part I: the program *)

(** ** Bytes, text and hexadecimal

    A JavaScript string is modelled by the sequence of bytes of its UTF-8
    encoding, that is a [string] of Rocq; [Buffer.from s] and
    [hmac.update s] read exactly these bytes. *)

Module Bytes.

Definition of_string (s : string) : list Z :=
  (fun c => Z.of_N (Ascii.N_of_ascii c)) <$> String.list_ascii_of_string s.

Definition hex_digit (n : Z) : Ascii.ascii :=
  match String.get (Z.to_nat (Z.land n 15)) "0123456789abcdef" with
  | Some c => c
  | None => "0"%char
  end.

(** Two lowercase hexadecimal digits per byte, as [digest('hex')]. *)
Fixpoint hex (bs : list Z) : string :=
  match bs with
  | [] => EmptyString
  | b :: bs' => String (hex_digit (Z.shiftr b 4)) (String (hex_digit b) (hex bs'))
  end.

End Bytes.

(** ** SHA-256 and HMAC (Node's [crypto.createHmac('sha256', key)])

    The digest is computed as FIPS 180-4 and RFC 2104 define it, on 32-bit
    words held in [Z] with the wrap-around written out. *)

Module Sha256.

Definition mask32 : Z := 0xFFFFFFFF.
Definition add32 (a b : Z) : Z := Z.land (a + b) mask32.
Definition rotr (n x : Z) : Z :=
  Z.lor (Z.shiftr x n) (Z.land (Z.shiftl x (32 - n)) mask32).
Definition not32 (x : Z) : Z := Z.lxor x mask32.

Definition Ch (x y z : Z) : Z := Z.lxor (Z.land x y) (Z.land (not32 x) z).
Definition Maj (x y z : Z) : Z :=
  Z.lxor (Z.lxor (Z.land x y) (Z.land x z)) (Z.land y z).
Definition Sigma0 (x : Z) : Z := Z.lxor (Z.lxor (rotr 2 x) (rotr 13 x)) (rotr 22 x).
Definition Sigma1 (x : Z) : Z := Z.lxor (Z.lxor (rotr 6 x) (rotr 11 x)) (rotr 25 x).
Definition sigma0 (x : Z) : Z := Z.lxor (Z.lxor (rotr 7 x) (rotr 18 x)) (Z.shiftr x 3).
Definition sigma1 (x : Z) : Z := Z.lxor (Z.lxor (rotr 17 x) (rotr 19 x)) (Z.shiftr x 10).

(** The round constants are the first 32 bits of the fractional parts of
    the cube roots of the first 64 primes, the initial hash value those of
    the square roots of the first 8 primes. *)
Definition is_prime (p : nat) : bool :=
  forallb (fun d => negb (p mod d =? 0)%nat) (seq 2 (p - 2)).

Definition primes : list Z := Z.of_nat <$> List.filter is_prime (seq 2 310).

(** The integer cube root, found bit by bit from the top. *)
Fixpoint cbrt_bits (bits : nat) (n r : Z) : Z :=
  match bits with
  | O => r
  | S b =>
      let c := r + 2 ^ Z.of_nat b in
      if c * c * c <=? n then cbrt_bits b n c else cbrt_bits b n r
  end.

Definition frac_cbrt (p : Z) : Z := Z.land (cbrt_bits 36 (p * 2 ^ 96) 0) mask32.
Definition frac_sqrt (p : Z) : Z := Z.land (Z.sqrt (p * 2 ^ 64)) mask32.

Definition K : list Z := Eval vm_compute in frac_cbrt <$> primes.

(** The eight working variables / chaining values. *)
Record state := State { sa : Z; sb : Z; sc : Z; sd : Z; se : Z; sf : Z; sg : Z; sh : Z }.

Definition H0 : state :=
  Eval vm_compute in
  match frac_sqrt <$> primes with
  | a :: b :: c :: d :: e :: f :: g :: h :: _ => State a b c d e f g h
  | _ => State 0 0 0 0 0 0 0 0
  end.

(** Big-endian encoding of a 32-bit word, and of the 64-bit bit length. *)
Definition word_bytes (w : Z) : list Z :=
  [ Z.land (Z.shiftr w 24) 255; Z.land (Z.shiftr w 16) 255;
    Z.land (Z.shiftr w 8) 255; Z.land w 255 ].

Definition length_bytes (n : Z) : list Z :=
  word_bytes (Z.shiftr n 32) ++ word_bytes (Z.land n mask32).

Definition pad (msg : list Z) : list Z :=
  let n := Z.of_nat (length msg) in
  let zeros := Z.to_nat ((55 - n) mod 64) in
  msg ++ [128] ++ replicate zeros 0 ++ length_bytes (8 * n).

Fixpoint words (bs : list Z) : list Z :=
  match bs with
  | b0 :: b1 :: b2 :: b3 :: rest =>
      (Z.shiftl b0 24 + Z.shiftl b1 16 + Z.shiftl b2 8 + b3) :: words rest
  | _ => []
  end.

Fixpoint blocks (fuel : nat) (bs : list Z) : list (list Z) :=
  match fuel, bs with
  | S f, _ :: _ => take 64 bs :: blocks f (drop 64 bs)
  | _, _ => []
  end.

(** Message schedule, newest word first: [rev] holds W[t-1], W[t-2], ... *)
Fixpoint extend (n : nat) (rev : list Z) : list Z :=
  match n with
  | O => rev
  | S n' =>
      let w := add32 (add32 (sigma1 (nth 1 rev 0)) (nth 6 rev 0))
                     (add32 (sigma0 (nth 14 rev 0)) (nth 15 rev 0)) in
      extend n' (w :: rev)
  end.

Definition schedule (block : list Z) : list Z :=
  reverse (extend 48 (reverse (words block))).

Definition round (s : state) (kw : Z * Z) : state :=
  let t1 := add32 (add32 (add32 (sh s) (Sigma1 (se s))) (Ch (se s) (sf s) (sg s)))
                  (add32 (fst kw) (snd kw)) in
  let t2 := add32 (Sigma0 (sa s)) (Maj (sa s) (sb s) (sc s)) in
  State (add32 t1 t2) (sa s) (sb s) (sc s) (add32 (sd s) t1) (se s) (sf s) (sg s).

Definition compress (h : state) (block : list Z) : state :=
  let s := foldl round h (zip K (schedule block)) in
  State (add32 (sa h) (sa s)) (add32 (sb h) (sb s)) (add32 (sc h) (sc s))
        (add32 (sd h) (sd s)) (add32 (se h) (se s)) (add32 (sf h) (sf s))
        (add32 (sg h) (sg s)) (add32 (sh h) (sh s)).

Definition state_bytes (s : state) : list Z :=
  word_bytes (sa s) ++ word_bytes (sb s) ++ word_bytes (sc s) ++ word_bytes (sd s) ++
  word_bytes (se s) ++ word_bytes (sf s) ++ word_bytes (sg s) ++ word_bytes (sh s).

Definition digest (msg : list Z) : list Z :=
  let p := pad msg in
  state_bytes (foldl compress H0 (blocks (length p) p)).

End Sha256.

Module Hmac.

Definition block_size : nat := 64.

Definition normalise_key (key : list Z) : list Z :=
  let k := if (block_size <? length key)%nat then Sha256.digest key else key in
  k ++ replicate (block_size - length k) 0.

Definition sha256 (key msg : list Z) : list Z :=
  let k := normalise_key key in
  let ipad := (fun b => Z.lxor b 0x36) <$> k in
  let opad := (fun b => Z.lxor b 0x5c) <$> k in
  Sha256.digest (opad ++ Sha256.digest (ipad ++ msg)).

End Hmac.

(** ** JSON values and [JSON.stringify]

    The values an event envelope is made of.  Numbers are the integers
    (printed in decimal, as [JSON.stringify] prints an integral Number);
    an object keeps its properties in insertion order. *)

Module JSON.

#[local] Set Warnings "-register-all".

Inductive value :=
| Null
| Bool (b : bool)
| Num (n : Z)
| Str (s : string)
| Arr (items : list value)
| Obj (props : list (string * value)).

Definition hex4 (n : Z) : string :=
  String (Bytes.hex_digit (Z.shiftr n 12)) (String (Bytes.hex_digit (Z.shiftr n 8))
    (String (Bytes.hex_digit (Z.shiftr n 4)) (String (Bytes.hex_digit n) EmptyString))).

(** QuoteJSONString: the two-character escapes, [\u00XX] for the other
    control characters, every other byte as it is. *)
Definition escape (c : ascii) : string :=
  let n := Z.of_N (N_of_ascii c) in
  if n =? 34 then String "\"%char (String c EmptyString)
  else if n =? 92 then "\\"
  else if n =? 8 then "\b"
  else if n =? 9 then "\t"
  else if n =? 10 then "\n"
  else if n =? 12 then "\f"
  else if n =? 13 then "\r"
  else if n <? 32 then "\u" +:+ hex4 n
  else String c EmptyString.

Fixpoint escape_all (s : string) : string :=
  match s with
  | EmptyString => EmptyString
  | String c s' => escape c +:+ escape_all s'
  end.

Definition dquote : ascii := "034"%char.

Definition quote (s : string) : string :=
  String dquote (escape_all s) +:+ String dquote EmptyString.

Fixpoint join (sep : string) (parts : list string) : string :=
  match parts with
  | [] => EmptyString
  | [p] => p
  | p :: rest => p +:+ sep +:+ join sep rest
  end.

Fixpoint stringify (v : value) : string :=
  match v with
  | Null => "null"
  | Bool true => "true"
  | Bool false => "false"
  | Num n => pretty n
  | Str s => quote s
  | Arr items => "[" +:+ join "," (List.map stringify items) +:+ "]"
  | Obj props =>
      "{" +:+ join "," (List.map (fun kv => quote (fst kv) +:+ ":" +:+ stringify (snd kv)) props)
          +:+ "}"
  end.

End JSON.

(** ** [Date.prototype.toISOString]

    Time is the number of milliseconds since the epoch, as [Date.now()]
    returns it; the rendering covers the years 1970 to 9999. *)

Module Date.

Fixpoint digits (width : nat) (n : Z) : string :=
  match width with
  | O => EmptyString
  | S w => digits w (n / 10) +:+ String (Bytes.hex_digit (n mod 10)) EmptyString
  end.

(** Civil date of a day number counted from 1970-01-01. *)
Definition civil (days : Z) : Z * Z * Z :=
  let z := days + 719468 in
  let era := z / 146097 in
  let doe := z - era * 146097 in
  let yoe := (doe - doe / 1460 + doe / 36524 - doe / 146096) / 365 in
  let doy := doe - (365 * yoe + yoe / 4 - yoe / 100) in
  let mp := (5 * doy + 2) / 153 in
  let d := doy - (153 * mp + 2) / 5 + 1 in
  let m := if mp <? 10 then mp + 3 else mp - 9 in
  let y := yoe + era * 400 + (if m <=? 2 then 1 else 0) in
  (y, m, d).

Definition toISOString (t : Z) : string :=
  let '(y, m, d) := civil (t / 86400000) in
  let ms := t mod 86400000 in
  digits 4 y +:+ "-" +:+ digits 2 m +:+ "-" +:+ digits 2 d +:+ "T" +:+
  digits 2 (ms / 3600000) +:+ ":" +:+ digits 2 (ms / 60000 mod 60) +:+ ":" +:+
  digits 2 (ms / 1000 mod 60) +:+ "." +:+ digits 3 (ms mod 1000) +:+ "Z".

End Date.

(** ** The [WebhookConfig] documents ([models/WebhookConfig.js])

    A JavaScript Number of the retry policy is an exact rational; the
    counters of [stats] and the times are integers. *)

Module Model.

Record Events := { cardExtracted : bool; userAdded : bool; configChanged : bool }.

Record RetryConfig := { maxRetries : Q; retryDelay : Q; backoffMultiplier : Q }.

Record Header := { name : string; value : string }.

Record Stats :=
  { totalSent : Z; successCount : Z; failureCount : Z; averageResponseTime : Z }.

Record WebhookConfig :=
  { _id : string;
    organization : string;
    url : string;
    secret : string;
    isActive : bool;
    events : Events;
    retryConfig : RetryConfig;
    headers : list Header;
    lastTriggered : option Z;
    stats : Stats }.

(** The schema's defaults for [stats]. *)
Definition default_stats : Stats :=
  {| totalSent := 0; successCount := 0; failureCount := 0; averageResponseTime := 0 |}.

(** [events[eventType]] read for its truth value: a name that is not a
    path of the schema reads [undefined], which is falsy. *)
Definition events_get (e : Events) (eventType : string) : bool :=
  if String.eqb eventType "cardExtracted" then cardExtracted e
  else if String.eqb eventType "userAdded" then userAdded e
  else if String.eqb eventType "configChanged" then configChanged e
  else false.

Definition set_stats (c : WebhookConfig) (st : Stats) (last : option Z) : WebhookConfig :=
  {| _id := _id c; organization := organization c; url := url c; secret := secret c;
     isActive := isActive c; events := events c; retryConfig := retryConfig c;
     headers := headers c; lastTriggered := last; stats := st |}.

End Model.
Import Model.

(** ** The event envelope

    [{ event, timestamp, organizationId, data }], built once by
    [sendWebhook]; [timestamp] is already the ISO string. *)

Module Envelope.

Record t := { event : string; timestamp : string; organizationId : string; data : JSON.value }.

(** The object as [JSON.stringify] and axios see it. *)
Definition to_json (p : t) : JSON.value :=
  JSON.Obj [ ("event", JSON.Str (event p));
             ("timestamp", JSON.Str (timestamp p));
             ("organizationId", JSON.Str (organizationId p));
             ("data", data p) ].

End Envelope.

(** ** The world the service runs in

    The MongoDB collection, the Redis-backed queue, the network and the
    console are state threaded through every operation; [network] scripts
    what the tenant's endpoint answers to the successive requests, and how
    long each answer takes. *)

(** What axios gets back: a response, or an error without one. *)
Inductive Reply :=
| Responded (status : Z) (statusText : string)
| NoResponse (code : string) (message : string).

Record Exchange := { reply : Reply; elapsed : Z }.

Record Request :=
  { req_url : string;
    req_headers : gmap string string;
    req_body : string;
    req_time : Z }.

(** A job of the queue: the [data] and [opts] given to [Queue.add], and
    the queue's own count of failed runs. *)
Record JobData := { webhookConfigId : string; payload : Envelope.t; attempt : Z }.

Record Backoff := { type : string; delay : Q }.

Record JobOpts := { attempts : Q; backoff : Backoff }.

Record Job := { jobId : string; jobName : string; data : JobData; opts : JobOpts;
                attemptsMade : nat }.

Record World :=
  { clock : Z;
    mongoUp : bool;
    configs : list WebhookConfig;
    nextId : nat;
    redisUp : bool;
    queue : list Job;
    network : list Exchange;
    requests : list Request;
    console : list string }.

Definition set_configs (cs : list WebhookConfig) (w : World) : World :=
  {| clock := clock w; mongoUp := mongoUp w; configs := cs; nextId := nextId w;
     redisUp := redisUp w; queue := queue w; network := network w;
     requests := requests w; console := console w |}.

Definition set_queue (q : list Job) (w : World) : World :=
  {| clock := clock w; mongoUp := mongoUp w; configs := configs w; nextId := nextId w;
     redisUp := redisUp w; queue := q; network := network w;
     requests := requests w; console := console w |}.

Definition set_console (c : list string) (w : World) : World :=
  {| clock := clock w; mongoUp := mongoUp w; configs := configs w; nextId := nextId w;
     redisUp := redisUp w; queue := queue w; network := network w;
     requests := requests w; console := c |}.

Definition set_clock (t : Z) (w : World) : World :=
  {| clock := t; mongoUp := mongoUp w; configs := configs w; nextId := nextId w;
     redisUp := redisUp w; queue := queue w; network := network w;
     requests := requests w; console := console w |}.

Definition set_net (t : Z) (net : list Exchange) (reqs : list Request) (w : World) : World :=
  {| clock := t; mongoUp := mongoUp w; configs := configs w; nextId := nextId w;
     redisUp := redisUp w; queue := queue w; network := net;
     requests := reqs; console := console w |}.

Definition set_next_id (n : nat) (w : World) : World :=
  {| clock := clock w; mongoUp := mongoUp w; configs := configs w; nextId := n;
     redisUp := redisUp w; queue := queue w; network := network w;
     requests := requests w; console := console w |}.

(** ** Promises: state with exceptions

    An [async] function is a state transformer that either resolves with
    a value or rejects with an [Error]; only the message of an error is
    ever read. *)

Inductive result (A : Type) :=
| Ok (a : A)
| Throw (message : string).
Arguments Ok {A} a.
Arguments Throw {A} message.

Definition M (A : Type) : Type := World -> result A * World.

Definition ret {A} (a : A) : M A := fun w => (Ok a, w).
Definition throw {A} (message : string) : M A := fun w => (Throw message, w).

Definition bind {A B} (m : M A) (k : A -> M B) : M B :=
  fun w => match m w with
           | (Ok a, w') => k a w'
           | (Throw e, w') => (Throw e, w')
           end.

Definition try_catch {A} (m : M A) (handler : string -> M A) : M A :=
  fun w => match m w with
           | (Ok a, w') => (Ok a, w')
           | (Throw e, w') => handler e w'
           end.

Notation "'let*' x := m 'in' k" := (bind m (fun x => k))
  (at level 10, x name, m at level 100, k at level 200).

Definition is_ok {A} (r : result A) : bool :=
  match r with Ok _ => true | Throw _ => false end.

(** [Date.now()] / [new Date()], [console.error] and [console.log]. *)
Definition now : M Z := fun w => (Ok (clock w), w).
Definition console_error (line : string) : M unit :=
  fun w => (Ok tt, set_console (console w ++ [line]) w).
Definition console_log (line : string) : M unit := console_error line.

(** *** The collection ([WebhookConfig.findOne], [findById], [findByIdAndUpdate]) *)

Module Mongo.

Definition unreachable : string := "MongoNetworkError: connection refused".

(** The filters [{ organization }], [{ organization, isActive: true }]
    and [{ _id }]. *)
Definition for_org (org : string) (c : WebhookConfig) : bool :=
  String.eqb (organization c) org.
Definition active_for (org : string) (c : WebhookConfig) : bool :=
  String.eqb (organization c) org && isActive c.
Definition with_id (id : string) (c : WebhookConfig) : bool :=
  String.eqb (_id c) id.

Definition query {A} (f : list WebhookConfig -> A) : M A :=
  fun w => if mongoUp w then (Ok (f (configs w)), w) else (Throw unreachable, w).

Definition findOne (filter : WebhookConfig -> bool) : M (option WebhookConfig) :=
  query (List.find filter).

Definition findById (id : string) : M (option WebhookConfig) :=
  query (List.find (with_id id)).

(** The first document with this [_id] is rewritten; none is created. *)
Fixpoint update_first (id : string) (f : WebhookConfig -> WebhookConfig)
    (cs : list WebhookConfig) : list WebhookConfig :=
  match cs with
  | [] => []
  | c :: rest => if with_id id c then f c :: rest else c :: update_first id f rest
  end.

Definition findByIdAndUpdate (id : string) (f : WebhookConfig -> WebhookConfig) : M unit :=
  fun w => if mongoUp w then (Ok tt, set_configs (update_first id f (configs w)) w)
           else (Throw unreachable, w).

End Mongo.

(** *** The network ([axios.post] with a timeout)

    The body is the JSON serialization of the object passed; a script
    that has run out answers like a closed port. *)

Module Axios.

Definition post (url : string) (body : JSON.value) (headers : gmap string string)
    (timeout : Z) : World -> Reply * World :=
  fun w =>
    let req := {| req_url := url; req_headers := headers;
                  req_body := JSON.stringify body; req_time := clock w |} in
    match network w with
    | [] => (NoResponse "ECONNREFUSED" "connect ECONNREFUSED",
             set_net (clock w) [] (requests w ++ [req]) w)
    | ex :: rest =>
        if timeout <=? elapsed ex
        then (NoResponse "ECONNABORTED" ("timeout of " +:+ pretty timeout +:+ "ms exceeded"),
              set_net (clock w + timeout) rest (requests w ++ [req]) w)
        else (reply ex, set_net (clock w + Z.max 0 (elapsed ex)) rest (requests w ++ [req]) w)
    end.

End Axios.

(** ** The queue's worker loop (BullMQ)

    The loop is not code of the service but of its dependency [bullmq];
    it is written here as that package documents it.  [new Worker(name,
    processor)] runs the processor on a job; when the processor throws,
    the job's [attemptsMade] is incremented and, while it stays below
    [opts.attempts], the job is delayed by the backoff and processed again
    with the same [data]; otherwise it is moved to the failed set.  The
    ['failed'] listener runs after every failed run.  The service only
    ever asks for the built-in ['exponential'] strategy,
    [Math.round(2 ** (attemptsMade - 1) * delay)]; any other type is read
    as no delay.  [fuel] bounds the number of runs; [Active] is a job the
    worker has not finished with. *)

Module BullMQ.

Definition js_round (q : Q) : Z := Qfloor (Qplus q (Qmake 1 2)).

Definition backoff_delay (b : Backoff) (attemptsMade : nat) : Z :=
  if String.eqb (type b) "exponential"
  then js_round (Qmult (inject_Z (2 ^ Z.of_nat (attemptsMade - 1))) (delay b))
  else 0.

Definition retry (job : Job) (made : nat) : Job :=
  {| jobId := jobId job; jobName := jobName job; data := data job; opts := opts job;
     attemptsMade := made |}.

Inductive JobEnd (R : Type) :=
| Completed (returnValue : R)
| Failed (err : string)
| Active.
Arguments Completed {R} returnValue.
Arguments Failed {R} err.
Arguments Active {R}.

(** What happened to a job: how it ended, how many times the processor
    ran, and the delays waited between the runs. *)
Record Report (R : Type) := { outcome : JobEnd R; tries : nat; delays : list Z }.
Arguments outcome {R} r.
Arguments tries {R} r.
Arguments delays {R} r.

Section Worker.
Context {R : Type}.
Variable processor : Job -> M R.
Variable on_completed : Job -> M unit.
Variable on_failed : Job -> string -> M unit.
(** What the rest of the system does to the world while the job waits
    after its n-th failure. *)
Variable meanwhile : nat -> World -> World.

Fixpoint work (fuel : nat) (job : Job) (w : World) : Report R * World :=
  match fuel with
  | O => ({| outcome := Active; tries := 0; delays := [] |}, w)
  | S fuel' =>
      match processor job w with
      | (Ok r, w1) =>
          ({| outcome := Completed r; tries := 1; delays := [] |},
           snd (on_completed job w1))
      | (Throw err, w1) =>
          let made := S (attemptsMade job) in
          let w2 := snd (on_failed job err w1) in
          if negb (Qle_bool (attempts (opts job)) (inject_Z (Z.of_nat made)))
          then
            let d := backoff_delay (backoff (opts job)) made in
            let w3 := meanwhile made (set_clock (clock w2 + d) w2) in
            let '(rep, w4) := work fuel' (retry job made) w3 in
            ({| outcome := outcome rep; tries := S (tries rep); delays := d :: delays rep |},
             w4)
          else ({| outcome := Failed err; tries := 1; delays := [] |}, w2)
      end
  end.
End Worker.

End BullMQ.

(** ** [WebhookService] ([services/webhookService.js]) *)

Record DeliveryResult :=
  { success : bool; status : Z; responseTime : Z; res_attempt : Z }.

(** What [sendWebhook] resolves with: [null], or the report of the queued
    or the direct delivery. *)
Inductive SendResult :=
| Skipped
| Queued (message : string)
| SentDirectly (message : string) (res : DeliveryResult).

Module WebhookService.

(** The instance: [redisEnabled] is fixed by the constructor from
    [process.env.REDIS_HOST]. *)
Record t := { redisEnabled : bool }.

Definition generateSignature (payload : JSON.value) (secret : string) : string :=
  let payloadString := JSON.stringify payload in
  "sha256=" +:+ Bytes.hex (Hmac.sha256 (Bytes.of_string secret) (Bytes.of_string payloadString)).

(** [crypto.timingSafeEqual]: a [RangeError] for buffers of different
    byte lengths, otherwise a comparison that reads every byte. *)
Definition timingSafeEqual (a b : list Z) : result bool :=
  if (length a =? length b)%nat
  then Ok (foldl (fun acc xy => Z.lor acc (Z.lxor (fst xy) (snd xy))) 0 (zip a b) =? 0)
  else Throw "Input buffers must have the same byte length".

Definition verifySignature (payload : JSON.value) (signature secret : string) : result bool :=
  let expectedSignature := generateSignature payload secret in
  timingSafeEqual (Bytes.of_string signature) (Bytes.of_string expectedSignature).

(** The object literal [headers] of [deliverWebhook]. *)
Definition default_headers (signature : string) (payload : Envelope.t) (attempt : Z)
    : gmap string string :=
  <["X-Attempt" := pretty attempt]>
  (<["X-Timestamp" := Envelope.timestamp payload]>
  (<["X-Event-Type" := Envelope.event payload]>
  (<["X-Signature-256" := signature]>
  (<["User-Agent" := "BusinessCardExtractor/1.0"]>
  (<["Content-Type" := "application/json"]> ∅))))).

(** [headers[header.name] = header.value] on that object: the last
    assignment to a name wins; assigning a string to [__proto__] is
    ignored. *)
Definition set_custom (headers : gmap string string) (header : Header) : gmap string string :=
  if String.eqb (name header) "__proto__" then headers
  else <[name header := value header]> headers.

Definition request_headers (webhookConfig : WebhookConfig) (payload : Envelope.t)
    (attempt : Z) : gmap string string :=
  let signature := generateSignature (Envelope.to_json payload) (secret webhookConfig) in
  foldl set_custom (default_headers signature payload attempt) (Model.headers webhookConfig).

Definition validateStatus (status : Z) : bool := (200 <=? status) && (status <? 300).

Definition deliverWebhook (webhookConfig : WebhookConfig) (payload : Envelope.t)
    (attempt : Z) : M DeliveryResult :=
  fun w =>
    let startTime := clock w in
    let headers := request_headers webhookConfig payload attempt in
    let '(answer, w') :=
      Axios.post (url webhookConfig) (Envelope.to_json payload) headers 30000 w in
    let failed errorMessage :=
      Throw ("Webhook delivery failed (attempt " +:+ pretty attempt +:+ "): " +:+ errorMessage) in
    match answer with
    | Responded status statusText =>
        if validateStatus status
        then (Ok {| success := true; status := status;
                    responseTime := clock w' - startTime; res_attempt := attempt |}, w')
        else (failed ("HTTP " +:+ pretty status +:+ ": " +:+ statusText), w')
    | NoResponse code message =>
        if String.eqb code "ECONNABORTED" then (failed "Request timeout", w')
        else if String.eqb code "ECONNREFUSED" then (failed "Connection refused", w')
        else (failed message, w')
    end.

(** [Math.round] of a quotient of integers with a positive divisor: the
    nearest integer, a half rounding up. *)
Definition round_div (num den : Z) : Z := Qfloor (Qplus (Qmake num (Z.to_pos den)) (Qmake 1 2)).

(** The update document of [updateWebhookStats], as the change it makes
    to the stored document. *)
Definition apply_stats (success : bool) (newAvg : option Z) (date : Z)
    (c : WebhookConfig) : WebhookConfig :=
  let s := stats c in
  set_stats c
    {| totalSent := totalSent s + 1;
       successCount := if success then successCount s + 1 else successCount s;
       failureCount := if success then failureCount s else failureCount s + 1;
       averageResponseTime := default (averageResponseTime s) newAvg |}
    (Some date).

Definition updateWebhookStats (webhookConfigId : string) (success : bool)
    (responseTime : Z) : M unit :=
  try_catch
    (let* date := now in
     let* newAvg :=
       (if success && (0 <? responseTime)
        then
          let* config := Mongo.findById webhookConfigId in
          match config with
          | None => throw "Cannot read properties of null (reading 'stats')"
          | Some config =>
              let currentAvg := averageResponseTime (stats config) in
              let totalSuccess := successCount (stats config) + 1 in
              ret (Some (round_div (currentAvg * (totalSuccess - 1) + responseTime) totalSuccess))
          end
        else ret None) in
     Mongo.findByIdAndUpdate webhookConfigId (apply_stats success newAvg date))
    (fun error => console_error ("Failed to update webhook stats: " +:+ error)).

(** The envelope built by [sendWebhook] and [testWebhook]. *)
Definition envelope (eventType : string) (date : Z) (organizationId : string)
    (data : JSON.value) : Envelope.t :=
  {| Envelope.event := eventType;
     Envelope.timestamp := Date.toISOString date;
     Envelope.organizationId := organizationId;
     Envelope.data := data |}.

(** [this.webhookQueue.add(name, data, opts)] *)
Definition queue_add (jobName : string) (data : JobData) (opts : JobOpts) : M unit :=
  fun w =>
    if redisUp w
    then (Ok tt, set_queue (queue w ++ [ {| jobId := pretty (S (length (queue w)));
                                             jobName := jobName; data := data; opts := opts;
                                             attemptsMade := 0 |} ]) w)
    else (Throw "connect ECONNREFUSED (redis)", w).

Definition sendWebhook (self : t) (organizationId eventType : string) (data : JSON.value)
    : M SendResult :=
  try_catch
    (let* webhookConfig := Mongo.findOne (Mongo.active_for organizationId) in
     match webhookConfig with
     | None => ret Skipped
     | Some webhookConfig =>
         if negb (events_get (events webhookConfig) eventType) then ret Skipped
         else
           let* date := now in
           let payload := envelope eventType date organizationId data in
           if redisEnabled self
           then
             let* _ := queue_add "deliver-webhook"
                 {| webhookConfigId := _id webhookConfig; payload := payload; attempt := 1 |}
                 {| attempts := (maxRetries (retryConfig webhookConfig) + 1)%Q;
                    backoff := {| type := "exponential";
                                  delay := retryDelay (retryConfig webhookConfig) |} |} in
             ret (Queued "Webhook queued for delivery")
           else
             let* result := deliverWebhook webhookConfig payload 1 in
             ret (SentDirectly "Webhook sent directly" result)
     end)
    (fun error =>
       let* _ := console_error ("Webhook sending error: " +:+ error) in
       throw ("Webhook delivery failed: " +:+ error)).

(** The processor handed to [new Worker('webhook-delivery', ...)]. *)
Definition processor (job : Job) : M DeliveryResult :=
  let webhookConfigId := webhookConfigId (data job) in
  let payload := payload (data job) in
  let attempt := attempt (data job) in
  try_catch
    (let* webhookConfig := Mongo.findById webhookConfigId in
     match webhookConfig with
     | Some webhookConfig =>
         if isActive webhookConfig
         then
           let* result := deliverWebhook webhookConfig payload attempt in
           let* _ := updateWebhookStats webhookConfigId true (responseTime result) in
           ret result
         else throw "Webhook configuration not found or inactive"
     | None => throw "Webhook configuration not found or inactive"
     end)
    (fun error =>
       let* _ := updateWebhookStats webhookConfigId false 0 in
       throw error).

(** [worker.on('completed', ...)] and [worker.on('failed', ...)] *)
Definition on_completed (job : Job) : M unit :=
  console_log ("Webhook delivered successfully: " +:+ jobId job).
Definition on_failed (job : Job) (err : string) : M unit :=
  console_error ("Webhook delivery failed: " +:+ jobId job +:+ " " +:+ err).

(** The worker started by [initializeWorker], run on one job. *)
Definition initializeWorker (meanwhile : nat -> World -> World) (fuel : nat) (job : Job)
    : World -> BullMQ.Report DeliveryResult * World :=
  BullMQ.work processor on_completed on_failed meanwhile fuel job.

(** [testPayload] is [None] when the argument is falsy. *)
Definition testWebhook (organizationId : string) (testPayload : option JSON.value)
    : M DeliveryResult :=
  try_catch
    (let* webhookConfig := Mongo.findOne (Mongo.active_for organizationId) in
     match webhookConfig with
     | None => throw "No active webhook configuration found"
     | Some webhookConfig =>
         let* date := now in
         let payload := envelope "test" date organizationId
               (default (JSON.Obj [("message", JSON.Str "This is a test webhook")]) testPayload) in
         deliverWebhook webhookConfig payload 1
     end)
    (fun error => throw ("Webhook test failed: " +:+ error)).

End WebhookService.

(** ** [PUT /webhook] ([routes/config.js])

    The request body after [express.json()]: [url] and [secret] are JSON
    strings or missing, [events] and [retryConfig] are missing or plain
    objects (what [isObject()] lets through), [headers] is missing or an
    array of name/value pairs.  A property that is missing reads
    [undefined], here [None]. *)

Module ConfigRoute.

Inductive JsVal :=
| JsNull
| JsBool (b : bool)
| JsNum (q : Q)
| JsStr (s : string)
| JsObject
| JsArray.

Record Body :=
  { b_url : option string;
    b_secret : option string;
    b_events : option (gmap string JsVal);
    b_retryConfig : option (gmap string JsVal);
    b_headers : option (list Header) }.

Inductive Response :=
| Json200 (message : string) (data : WebhookConfig)
| Json400 (error : string)
| Json500 (error details : string).

(** ToBoolean. *)
Definition truthy (v : option JsVal) : bool :=
  match v with
  | None | Some JsNull => false
  | Some (JsBool b) => b
  | Some (JsNum q) => negb (Qeq_bool q 0)
  | Some (JsStr s) => negb (String.eqb s "")
  | Some JsObject | Some JsArray => true
  end.

(** [v || d] *)
Definition or_else (v : option JsVal) (d : JsVal) : JsVal :=
  match v with
  | Some x => if truthy v then x else d
  | None => d
  end.

Section Handler.
(** validator.js's [isURL(str, { protocols: ['http', 'https'] })] and
    JavaScript's [Number(str)] ([None] for [NaN]). *)
Variable isURL : string -> bool.
Variable Number_ : string -> option Q.

(** mongoose's casts of an update value to the schema types; [None]
    is a [CastError]. *)
Definition castBoolean (v : JsVal) : option bool :=
  match v with
  | JsBool b => Some b
  | JsNull => Some false
  | JsNum q => if Qeq_bool q 1 then Some true else if Qeq_bool q 0 then Some false else None
  | JsStr s =>
      if String.eqb s "true" || String.eqb s "1" || String.eqb s "yes" then Some true
      else if String.eqb s "false" || String.eqb s "0" || String.eqb s "no" then Some false
      else None
  | JsObject | JsArray => None
  end.

Definition castNumber (v : JsVal) : option Q :=
  match v with
  | JsNum q => Some q
  | JsBool b => Some (if b then 1%Q else 0%Q)
  | JsStr s => Number_ s
  | JsNull | JsObject | JsArray => None
  end.

(** [validateUrl], [validateWebhookSecret] and the three optional checks,
    then [handleValidationErrors]. *)
Definition valid (body : Body) : bool :=
  match b_url body, b_secret body with
  | Some u, Some s =>
      isURL u && (16 <=? String.length s)%nat && (String.length s <=? 64)%nat
  | _, _ => false
  end.

(** The fields of [configData] that the schema has to cast. *)
Record ConfigData :=
  { cd_cardExtracted : JsVal; cd_userAdded : JsVal; cd_configChanged : JsVal;
    cd_maxRetries : JsVal; cd_retryDelay : JsVal; cd_backoffMultiplier : JsVal }.

Definition configData (body : Body) : ConfigData :=
  let events := default {[ "cardExtracted" := JsBool true ]} (b_events body) in
  let retryConfig := default ∅ (b_retryConfig body) in
  {| cd_cardExtracted := default (JsBool true) (events !! "cardExtracted");
     cd_userAdded := or_else (events !! "userAdded") (JsBool false);
     cd_configChanged := or_else (events !! "configChanged") (JsBool false);
     cd_maxRetries := or_else (retryConfig !! "maxRetries") (JsNum 3);
     cd_retryDelay := or_else (retryConfig !! "retryDelay") (JsNum 1000);
     cd_backoffMultiplier := or_else (retryConfig !! "backoffMultiplier") (JsNum 2) |}.

Definition cast (cd : ConfigData) : option (Events * RetryConfig) :=
  ce ← castBoolean (cd_cardExtracted cd);
  ua ← castBoolean (cd_userAdded cd);
  cc ← castBoolean (cd_configChanged cd);
  mr ← castNumber (cd_maxRetries cd);
  rd ← castNumber (cd_retryDelay cd);
  bm ← castNumber (cd_backoffMultiplier cd);
  Some ({| cardExtracted := ce; userAdded := ua; configChanged := cc |},
        {| maxRetries := mr; retryDelay := rd; backoffMultiplier := bm |}).

(** The [$set] of the update on a stored document. *)
Definition overwrite (u s : string) (ev : Events) (rc : RetryConfig) (hs : list Header)
    (c : WebhookConfig) : WebhookConfig :=
  {| _id := _id c; organization := organization c; url := u; secret := s;
     isActive := true; events := ev; retryConfig := rc; headers := hs;
     lastTriggered := lastTriggered c; stats := stats c |}.

Fixpoint upsert (org : string) (f : WebhookConfig -> WebhookConfig) (fresh : WebhookConfig)
    (cs : list WebhookConfig) : list WebhookConfig * WebhookConfig :=
  match cs with
  | [] => ([f fresh], f fresh)
  | c :: rest =>
      if Mongo.for_org org c then (f c :: rest, f c)
      else let '(rest', doc) := upsert org f fresh rest in (c :: rest', doc)
  end.

(** [WebhookConfig.findOneAndUpdate({ organization }, configData,
    { upsert: true, new: true })] *)
Definition findOneAndUpdate (org u s : string) (cd : ConfigData) (hs : list Header)
    : M WebhookConfig :=
  fun w =>
    if mongoUp w then
      match cast cd with
      | Some (ev, rc) =>
          let fresh :=
            {| _id := "oid" +:+ pretty (nextId w); organization := org; url := u; secret := s;
               isActive := true; events := ev; retryConfig := rc; headers := hs;
               lastTriggered := None; stats := default_stats |} in
          let '(cs, doc) := upsert org (overwrite u s ev rc hs) fresh (configs w) in
          (Ok doc, set_next_id (S (nextId w)) (set_configs cs w))
      | None => (Throw "Cast failed for value", w)
      end
    else (Throw Mongo.unreachable, w).

Definition put_webhook (organization : string) (body : Body) : M Response :=
  if valid body then
    try_catch
      (let* webhookConfig :=
         findOneAndUpdate organization (default "" (b_url body)) (default "" (b_secret body))
                          (configData body) (default [] (b_headers body)) in
       ret (Json200 "Webhook configuration saved successfully" webhookConfig))
      (fun error =>
         let* _ := console_error ("Error saving webhook config: " +:+ error) in
         ret (Json500 "Failed to save webhook configuration" error))
  else ret (Json400 "Validation failed").

End Handler.

End ConfigRoute.

(** ** The caller in [routes/cards.js]

    [WebhookService.sendWebhook(...).catch(err => console.error(...))]:
    the rejection is logged and the upload answers all the same. *)

Definition cards_notify (service : WebhookService.t) (organization : string)
    (data : JSON.value) : M unit :=
  try_catch
    (let* _ := WebhookService.sendWebhook service organization "cardExtracted" data in ret tt)
    (fun err => console_error ("Webhook delivery failed: " +:+ err)).

(** ** The queue's sets and the service's queue operations

    [getWaiting], [getActive], [getCompleted] and [getFailed] read the four
    sets of the [bullmq] queue; [job.retry()] takes a job out of the failed
    set and makes it wait again.  The sets are passed beside the world. *)

Module BullQueue.

Record t :=
  { waiting : list Job; active : list Job; completed : list Job; failed : list Job }.

Fixpoint remove_first (id : string) (jobs : list Job) : list Job :=
  match jobs with
  | [] => []
  | j :: rest => if String.eqb (jobId j) id then rest else j :: remove_first id rest
  end.

Definition retry (job : Job) (q : t) : t :=
  {| waiting := waiting q ++ [job]; active := active q; completed := completed q;
     failed := remove_first (jobId job) (failed q) |}.

End BullQueue.

Module WebhookQueueOps.

(** The constructor: [this.redisEnabled = !!(process.env.REDIS_HOST)];
    the queue and the worker exist only when it is true. *)
Definition constructor (REDIS_HOST : option string) : WebhookService.t :=
  {| WebhookService.redisEnabled :=
       match REDIS_HOST with
       | Some host => negb (String.eqb host "")
       | None => false
       end |}.

Record Counts := { n_waiting : nat; n_active : nat; n_completed : nat; n_failed : nat }.

(** A method call on [this.webhookQueue]: a [TypeError] when the service
    was built without a queue, an error when Redis cannot be reached. *)
Definition on_queue {A} (self : WebhookService.t) (method : string) (a : A) : M A :=
  fun w =>
    if WebhookService.redisEnabled self
    then if redisUp w then (Ok a, w) else (Throw "connect ECONNREFUSED (redis)", w)
    else (Throw ("Cannot read properties of undefined (reading '" +:+ method +:+ "')"), w).

Definition getQueueStats (self : WebhookService.t) (q : BullQueue.t) : M (option Counts) :=
  try_catch
    (let* waiting := on_queue self "getWaiting" (BullQueue.waiting q) in
     let* active := on_queue self "getActive" (BullQueue.active q) in
     let* completed := on_queue self "getCompleted" (BullQueue.completed q) in
     let* failed := on_queue self "getFailed" (BullQueue.failed q) in
     ret (Some {| n_waiting := length waiting; n_active := length active;
                  n_completed := length completed; n_failed := length failed |}))
    (fun error =>
       let* _ := console_error ("Failed to get queue stats: " +:+ error) in
       ret None).

(** [job.data.payload.organizationId === organizationId.toString()] *)
Definition of_organization (organizationId : string) (job : Job) : bool :=
  String.eqb (Envelope.organizationId (payload (data job))) organizationId.

(** Resolves with [retriedCount] and leaves the sets as the retries made
    them. *)
Definition retryFailedWebhooks (self : WebhookService.t) (organizationId : string)
    (q : BullQueue.t) : M (nat * BullQueue.t) :=
  try_catch
    (let* failed := on_queue self "getFailed" (BullQueue.failed q) in
     let orgFailures := List.filter (of_organization organizationId) failed in
     ret (length orgFailures, foldl (fun q job => BullQueue.retry job q) q orgFailures))
    (fun error => throw ("Failed to retry webhooks: " +:+ error)).

End WebhookQueueOps.

(** ** The other webhook routes of [routes/config.js] *)

Module WebhookRoutes.

(** [toJSON] of the model: the document without its [secret]. *)
Record ConfigView :=
  { v_id : string; v_organization : string; v_url : string; v_isActive : bool;
    v_events : Events; v_retryConfig : RetryConfig; v_headers : list Header;
    v_lastTriggered : option Z; v_stats : Stats }.

Definition toJSON (c : WebhookConfig) : ConfigView :=
  {| v_id := _id c; v_organization := organization c; v_url := url c;
     v_isActive := isActive c; v_events := events c; v_retryConfig := retryConfig c;
     v_headers := headers c; v_lastTriggered := lastTriggered c; v_stats := stats c |}.

(** What a handler answers: the JSON of a 200, or an error with its
    status. *)
Inductive Answer :=
| Found (data : option ConfigView) (message : option string)
| Tested (message : string) (status responseTime : Z)
| StatsOf (config : Stats) (queue : option WebhookQueueOps.Counts) (lastTriggered : option Z)
| Retried (message : string) (retriedCount : nat)
| Deleted (message : string)
| NotFound (error : string)
| BadRequest (error details : string)
| ServerError (error details : string).

Definition http_status (a : Answer) : Z :=
  match a with
  | NotFound _ => 404
  | BadRequest _ _ => 400
  | ServerError _ _ => 500
  | _ => 200
  end.

(** [GET /webhook] *)
Definition get_webhook (organization : string) : M Answer :=
  try_catch
    (let* webhookConfig := Mongo.findOne (Mongo.for_org organization) in
     match webhookConfig with
     | None => ret (Found None (Some "No webhook configuration found"))
     | Some webhookConfig => ret (Found (Some (toJSON webhookConfig)) None)
     end)
    (fun error =>
       let* _ := console_error ("Error fetching webhook config: " +:+ error) in
       ret (ServerError "Failed to fetch webhook configuration" error)).

(** ToBoolean of a JSON value, for [testData || { ... }]. *)
Definition truthy (v : JSON.value) : bool :=
  match v with
  | JSON.Null => false
  | JSON.Bool b => b
  | JSON.Num n => negb (n =? 0)
  | JSON.Str s => negb (String.eqb s "")
  | JSON.Arr _ | JSON.Obj _ => true
  end.

(** [POST /webhook/test]; [testData] is [None] when the body has none. *)
Definition post_webhook_test (organization : string) (testData : option JSON.value)
    : M Answer :=
  let fallback := JSON.Obj [("message", JSON.Str "Test webhook from admin panel")] in
  let data := match testData with
              | Some v => if truthy v then v else fallback
              | None => fallback
              end in
  try_catch
    (let* result := WebhookService.testWebhook organization (Some data) in
     ret (Tested "Webhook test completed successfully" (status result) (responseTime result)))
    (fun error =>
       let* _ := console_error ("Error testing webhook: " +:+ error) in
       ret (BadRequest "Webhook test failed" error)).

(** [GET /webhook/stats] *)
Definition get_webhook_stats (self : WebhookService.t) (organization : string)
    (q : BullQueue.t) : M Answer :=
  try_catch
    (let* webhookConfig := Mongo.findOne (Mongo.for_org organization) in
     match webhookConfig with
     | None => ret (NotFound "Webhook configuration not found")
     | Some webhookConfig =>
         let* queueStats := WebhookQueueOps.getQueueStats self q in
         ret (StatsOf (stats webhookConfig) queueStats (lastTriggered webhookConfig))
     end)
    (fun error =>
       let* _ := console_error ("Error fetching webhook stats: " +:+ error) in
       ret (ServerError "Failed to fetch webhook statistics" error)).

(** [POST /webhook/retry]; the sets are returned as the handler left them. *)
Definition post_webhook_retry (self : WebhookService.t) (organization : string)
    (q : BullQueue.t) : M (Answer * BullQueue.t) :=
  try_catch
    (let* result := WebhookQueueOps.retryFailedWebhooks self organization q in
     ret (Retried (pretty (fst result) +:+ " failed webhooks queued for retry") (fst result),
          snd result))
    (fun error =>
       let* _ := console_error ("Error retrying webhooks: " +:+ error) in
       ret (ServerError "Failed to retry webhooks" error, q)).

(** [WebhookConfig.findOneAndDelete({ organization })]: the first document
    of the organization is removed and returned. *)
Fixpoint remove_for (org : string) (cs : list WebhookConfig) : list WebhookConfig :=
  match cs with
  | [] => []
  | c :: rest => if Mongo.for_org org c then rest else c :: remove_for org rest
  end.

Definition findOneAndDelete (org : string) : M (option WebhookConfig) :=
  fun w =>
    if mongoUp w
    then (Ok (List.find (Mongo.for_org org) (configs w)),
          set_configs (remove_for org (configs w)) w)
    else (Throw Mongo.unreachable, w).

(** [DELETE /webhook] *)
Definition delete_webhook (organization : string) : M Answer :=
  try_catch
    (let* result := findOneAndDelete organization in
     match result with
     | None => ret (NotFound "Webhook configuration not found")
     | Some _ => ret (Deleted "Webhook configuration deleted successfully")
     end)
    (fun error =>
       let* _ := console_error ("Error deleting webhook config: " +:+ error) in
       ret (ServerError "Failed to delete webhook configuration" error)).

End WebhookRoutes.

(** * Part II: the notions of the statements *)

(** The document stored under an [_id]. *)
Definition lookup (id : string) (w : World) : option WebhookConfig :=
  List.find (Mongo.with_id id) (configs w).

(** The request one delivery attempt puts on the wire at time [t]. *)
Definition request_for (c : WebhookConfig) (payload : Envelope.t) (attempt t : Z) : Request :=
  {| req_url := url c;
     req_headers := WebhookService.request_headers c payload attempt;
     req_body := JSON.stringify (Envelope.to_json payload);
     req_time := t |}.

(** The requests issued between two states of the world. *)
Definition sent_since (w w' : World) : list Request :=
  drop (length (requests w)) (requests w').

(** The job [sendWebhook] hands to the queue for a configuration. *)
Definition job_for (c : WebhookConfig) (eventType organizationId : string)
    (data : JSON.value) (w : World) : Job :=
  {| jobId := pretty (S (length (queue w))); jobName := "deliver-webhook";
     data := {| webhookConfigId := _id c;
                payload := WebhookService.envelope eventType (clock w) organizationId data;
                attempt := 1 |};
     opts := {| attempts := (maxRetries (retryConfig c) + 1)%Q;
                backoff := {| type := "exponential"; delay := retryDelay (retryConfig c) |} |};
     attemptsMade := 0 |}.

Definition delivered {R} (o : BullMQ.JobEnd R) : bool :=
  match o with BullMQ.Completed _ => true | _ => false end.

(** A property of the document stored under [id], if there is one. *)
Definition holds_for (id : string) (P : WebhookConfig -> Prop) (w : World) : Prop :=
  forall c, lookup id w = Some c -> P c.

(** The delay the specification asks for before attempt [k + 1]:
    [initialDelayMs * backoffMultiplier ^ (k - 1)]. *)
Definition spec_delay (initialDelayMs backoffMultiplier : Q) (k : nat) : Q :=
  (initialDelayMs * backoffMultiplier ^ (Z.of_nat k - 1))%Q.

(** ** Worked scenarios *)

Module Scenario.

(** The tenant of the specification's scenarios, with the retry policy
    as a parameter. *)
Definition tenant_with (retries delay multiplier : Q) : WebhookConfig :=
  {| _id := "cfg1"; organization := "org1"; url := "https://x.test/hook";
     secret := "ssssssssssssssss"; isActive := true;
     events := {| cardExtracted := true; userAdded := false; configChanged := false |};
     retryConfig := {| maxRetries := retries; retryDelay := delay;
                       backoffMultiplier := multiplier |};
     headers := []; lastTriggered := None; stats := default_stats |}.

Definition tenant : WebhookConfig := tenant_with 2 100 2.

Definition world_of (c : WebhookConfig) (net : list Exchange) : World :=
  {| clock := 1700000000000; mongoUp := true; configs := [c]; nextId := 2;
     redisUp := true; queue := []; network := net; requests := []; console := [] |}.

Definition world (net : list Exchange) : World := world_of tenant net.

Definition http (status : Z) (text : string) (ms : Z) : Exchange :=
  {| reply := Responded status text; elapsed := ms |}.

Definition server_error : Exchange := http 500 "Internal Server Error" 20.

Definition queued : WebhookService.t := {| WebhookService.redisEnabled := true |}.
Definition direct : WebhookService.t := {| WebhookService.redisEnabled := false |}.

(** Nothing else happens while a job waits. *)
Definition quiet : nat -> World -> World := fun _ w => w.

(** Dispatch one event and let the worker run the job that was queued. *)
Definition dispatch_and_work (meanwhile : nat -> World -> World) (fuel : nat)
    (org eventType : string) (data : JSON.value) (w : World)
    : option (BullMQ.Report DeliveryResult * World) :=
  match WebhookService.sendWebhook queued org eventType data w with
  | (Ok (Queued _), w') =>
      match last (queue w') with
      | Some job => Some (WebhookService.initializeWorker meanwhile fuel job w')
      | None => None
      end
  | _ => None
  end.

(** The number of runs, the delays and the number of requests. *)
Definition summary (r : option (BullMQ.Report DeliveryResult * World))
    : option (nat * list Z * nat) :=
  match r with
  | Some (rep, w) => Some (BullMQ.tries rep, BullMQ.delays rep, length (requests w))
  | None => None
  end.

Definition stats_after (r : option (BullMQ.Report DeliveryResult * World)) : option Stats :=
  match r with
  | Some (_, w) => stats <$> lookup "cfg1" w
  | None => None
  end.

Definition header_of (key : string) (r : option (BullMQ.Report DeliveryResult * World))
    : list (option string) :=
  match r with
  | Some (_, w) => (fun req => req_headers req !! key) <$> requests w
  | None => []
  end.


(** Scenario A: two refusals, then a success. *)
Definition refused_twice : list Exchange := [server_error; server_error; http 200 "OK" 30].

Definition retried_then_delivered : option (BullMQ.Report DeliveryResult * World) :=
  dispatch_and_work quiet 10 "org1" "cardExtracted" (JSON.Obj []) (world refused_twice).

(** Scenario B: the endpoint refuses every time. *)
Definition refused_always : list Exchange :=
  [server_error; server_error; server_error; server_error].

(** The job of scenarios A and B, and the world it waits in. *)
Definition job (net : list Exchange) : Job :=
  job_for tenant "cardExtracted" "org1" (JSON.Obj []) (world net).

Definition waiting (net : list Exchange) : World := set_queue [job net] (world net).

(** The same tenant asking for another backoff multiplier, with an
    initial delay of one second. *)
Definition refused_with_multiplier (m : Q) : option (BullMQ.Report DeliveryResult * World) :=
  dispatch_and_work quiet 10 "org1" "cardExtracted" (JSON.Obj [])
    (world_of (tenant_with 2 1000 m) [server_error; server_error; server_error]).

(** The tenant saves a new secret while the job waits after its first
    failure. *)
Definition new_secret : ConfigRoute.Body :=
  {| ConfigRoute.b_url := Some "https://x.test/hook";
     ConfigRoute.b_secret := Some "tttttttttttttttt";
     ConfigRoute.b_events := None;
     ConfigRoute.b_retryConfig := None;
     ConfigRoute.b_headers := None |}.



(** A tenant asks for no retries at all. *)
Definition zero_retries : ConfigRoute.Body :=
  {| ConfigRoute.b_url := Some "https://x.test/hook";
     ConfigRoute.b_secret := Some "ssssssssssssssss";
     ConfigRoute.b_events := None;
     ConfigRoute.b_retryConfig := Some {[ "maxRetries" := ConfigRoute.JsNum 0 ]};
     ConfigRoute.b_headers := None |}.

End Scenario.

(** ** Further notions and cases *)

Definition is_hex_digit (c : ascii) : bool :=
  existsb (Ascii.eqb c) (String.list_ascii_of_string "0123456789abcdef").

(** [job.retry()] on each job of a list, in order. *)
Definition retry_all (jobs : list Job) (q : BullQueue.t) : BullQueue.t :=
  foldl (fun q job => BullQueue.retry job q) q jobs.

Module Cases.

(** A second tenant beside the one of the scenarios. *)
Definition other_tenant : WebhookConfig :=
  {| _id := "cfg2"; organization := "org2"; url := "https://y.test/in";
     secret := "uuuuuuuuuuuuuuuu"; isActive := true;
     events := {| cardExtracted := true; userAdded := true; configChanged := false |};
     retryConfig := {| maxRetries := 1; retryDelay := 500; backoffMultiplier := 2 |};
     headers := [ {| name := "X-Attempt"; value := "first" |};
                  {| name := "Authorization"; value := "Bearer t" |};
                  {| name := "X-Attempt"; value := "custom" |} ];
     lastTriggered := None; stats := default_stats |}.

Definition two_tenants (net : list Exchange) : World :=
  {| clock := 1700000000000; mongoUp := true; configs := [Scenario.tenant; other_tenant];
     nextId := 3; redisUp := true; queue := []; network := net; requests := [];
     console := [] |}.

Definition failed_job (id org : string) : Job :=
  {| jobId := id; jobName := "deliver-webhook";
     data := {| webhookConfigId := "cfg"; payload := WebhookService.envelope "cardExtracted" 0 org JSON.Null;
                attempt := 1 |};
     opts := {| attempts := 3; backoff := {| type := "exponential"; delay := 100 |} |};
     attemptsMade := 3 |}.

Definition sets : BullQueue.t :=
  {| BullQueue.waiting := [failed_job "9" "org2"]; BullQueue.active := [];
     BullQueue.completed := [];
     BullQueue.failed := [failed_job "1" "org1"; failed_job "2" "org2"; failed_job "3" "org1"] |}.

End Cases.

(** * Part III: properties *)

(** ** The libraries against their test vectors *)

Example sha256_abc :
  Bytes.hex (Sha256.digest (Bytes.of_string "abc")) =
  "ba7816bf8f01cfea414140de5dae2223b00361a396177a9cb410ff61f20015ad".
Proof. vm_compute. reflexivity. Qed.

Example sha256_two_blocks :
  Bytes.hex (Sha256.digest (Bytes.of_string
    "abcdbcdecdefdefgefghfghighijhijkijkljklmklmnlmnomnopnopq")) =
  "248d6a61d20638b8e5c026930c3e6039a33ce45964ff2167f6ecedd419db06c1".
Proof. vm_compute. reflexivity. Qed.

Example hmac_rfc4231_case2 :
  Bytes.hex (Hmac.sha256 (Bytes.of_string "Jefe")
                         (Bytes.of_string "what do ya want for nothing?")) =
  "5bdcc146bf60754e6a042426089575c75a003f089d2739839dec58b964ec3843".
Proof. vm_compute. reflexivity. Qed.

Example hmac_long_key :
  Bytes.hex (Hmac.sha256 (replicate 131 170)
               (Bytes.of_string "Test Using Larger Than Block-Size Key - Hash Key First")) =
  "60e431591ee0b67f0d8a26aacbf5b77f8e0bc6213728c5140546040f0ee37f54".
Proof. vm_compute. reflexivity. Qed.

Example toISOString_epoch : Date.toISOString 0 = "1970-01-01T00:00:00.000Z".
Proof. vm_compute. reflexivity. Qed.

Example toISOString_leap_day : Date.toISOString 951782400123 = "2000-02-29T00:00:00.123Z".
Proof. vm_compute. reflexivity. Qed.

Example toISOString_2023 : Date.toISOString 1700000000000 = "2023-11-14T22:13:20.000Z".
Proof. vm_compute. reflexivity. Qed.

Example stringify_nested :
  JSON.stringify (JSON.Obj [("a", JSON.Arr [JSON.Num 1; JSON.Num (-20); JSON.Null]);
                            ("b", JSON.Obj [("c", JSON.Bool true)])]) =
  "{" +:+ JSON.quote "a" +:+ ":[1,-20,null]," +:+ JSON.quote "b" +:+ ":{" +:+ JSON.quote "c"
      +:+ ":true}}".
Proof. vm_compute. reflexivity. Qed.

Example stringify_escapes :
  JSON.stringify (JSON.Str (String "010"%char (String "034"%char (String "001"%char "\")))) =
  String "034"%char ("\n\" +:+ String "034"%char ("\u0001\\" +:+ String "034"%char "")).
Proof. vm_compute. reflexivity. Qed.

(** ** The signer *)

Lemma hex_length bs : String.length (Bytes.hex bs) = (2 * length bs)%nat.
Proof. induction bs as [|b bs IH]; simpl; [reflexivity | rewrite IH; lia]. Qed.

Lemma digest_length msg : length (Sha256.digest msg) = 32%nat.
Proof. reflexivity. Qed.

Lemma hmac_length key msg : length (Hmac.sha256 key msg) = 32%nat.
Proof. apply digest_length. Qed.

Lemma of_string_length s : length (Bytes.of_string s) = String.length s.
Proof.
  unfold Bytes.of_string. rewrite length_fmap.
  induction s as [|c s IH]; simpl; [reflexivity | now rewrite IH].
Qed.

Lemma of_string_inj s1 s2 : Bytes.of_string s1 = Bytes.of_string s2 -> s1 = s2.
Proof.
  unfold Bytes.of_string. revert s2.
  induction s1 as [|c s1 IH]; intros [|d s2]; simpl; try discriminate; [reflexivity |].
  intros H. injection H as Hc Hs. f_equal; [| now apply IH].
  apply N2Z.inj in Hc.
  rewrite <- (ascii_N_embedding c), <- (ascii_N_embedding d). now rewrite Hc.
Qed.

Lemma string_length_append (s1 s2 : string) :
  String.length (s1 +:+ s2) = (String.length s1 + String.length s2)%nat.
Proof. induction s1 as [|c s1 IH]; simpl; [reflexivity | now rewrite IH]. Qed.

(** The accumulator of the comparison stays zero exactly when every pair
    of bytes agrees. *)
Lemma xor_fold_zero (a b : list Z) (acc : Z) :
  length a = length b ->
  foldl (fun acc xy => Z.lor acc (Z.lxor (fst xy) (snd xy))) acc (zip a b) = 0 <->
  acc = 0 /\ a = b.
Proof.
  revert b acc. induction a as [|x a IH]; intros [|y b] acc Hlen; simpl in *; try discriminate.
  - intuition.
  - injection Hlen as Hlen. rewrite (IH b _ Hlen), Z.lor_eq_0_iff, Z.lxor_eq_0_iff.
    split; [intros [[? ?] ?]; subst; auto | intros [? H]; injection H as ? ?; subst; auto].
Qed.

Lemma timingSafeEqual_spec (a b : list Z) :
  WebhookService.timingSafeEqual a b =
  if (length a =? length b)%nat then Ok (bool_decide (a = b))
  else Throw "Input buffers must have the same byte length".
Proof.
  unfold WebhookService.timingSafeEqual.
  destruct (Nat.eqb_spec (length a) (length b)) as [Hlen|]; [|reflexivity].
  f_equal. pose proof (xor_fold_zero a b 0 Hlen) as Hz.
  destruct (Z.eqb_spec (foldl (fun acc xy => Z.lor acc (Z.lxor (fst xy) (snd xy))) 0 (zip a b)) 0)
    as [E|E]; symmetry.
  - apply bool_decide_eq_true. now apply Hz in E.
  - apply bool_decide_eq_false. intros ->. apply E, Hz. auto.
Qed.

Lemma generateSignature_length payload secret :
  String.length (WebhookService.generateSignature payload secret) = 71%nat.
Proof.
  unfold WebhookService.generateSignature.
  rewrite string_length_append, hex_length, hmac_length. reflexivity.
Qed.

Lemma verifySignature_eq payload signature secret :
  WebhookService.verifySignature payload signature secret =
  if (String.length signature =? 71)%nat
  then Ok (String.eqb signature (WebhookService.generateSignature payload secret))
  else Throw "Input buffers must have the same byte length".
Proof.
  unfold WebhookService.verifySignature.
  rewrite timingSafeEqual_spec, !of_string_length, generateSignature_length.
  destruct (String.length signature =? 71)%nat; [|reflexivity]. f_equal.
  destruct (String.eqb_spec signature (WebhookService.generateSignature payload secret))
    as [->|Hne].
  - now apply bool_decide_eq_true.
  - apply bool_decide_eq_false. intros H. now apply of_string_inj in H.
Qed.

(** C10: [verifySignature] returns a boolean only for a candidate of the
    byte length of the expected signature, ['sha256='] and 64 hexadecimal
    digits, that is 71 bytes; for every other length the buffer comparison
    throws instead of returning [false]. *)
Theorem C10_verifySignature_length payload signature secret :
  String.length (WebhookService.generateSignature payload secret) = 71%nat /\
  WebhookService.verifySignature payload signature secret =
  if (String.length signature =? 71)%nat
  then Ok (String.eqb signature (WebhookService.generateSignature payload secret))
  else Throw "Input buffers must have the same byte length".
Proof. split; [apply generateSignature_length | apply verifySignature_eq]. Qed.

(** ** The dispatcher *)

Lemma find_none_inactive org (cs : list WebhookConfig) :
  (forall c, In c cs -> organization c = org -> isActive c = false) ->
  List.find (Mongo.active_for org) cs = None.
Proof.
  intros H. destruct (List.find (Mongo.active_for org) cs) as [c|] eqn:E; [|reflexivity].
  apply List.find_some in E as [Hin Hc]. unfold Mongo.active_for in Hc.
  apply andb_true_iff in Hc as [Ho Ha]. apply String.eqb_eq in Ho.
  rewrite (H c Hin Ho) in Ha. discriminate.
Qed.

(** In queued mode [sendWebhook] either skips, or enqueues [job_for] and
    reports it, or rejects because MongoDB or Redis cannot be reached. *)
Lemma sendWebhook_queued_cases org ev data w :
  let r := WebhookService.sendWebhook {| WebhookService.redisEnabled := true |} org ev data w in
  (mongoUp w = false /\ exists e, fst r = Throw e) \/
  (mongoUp w = true /\ r = (Ok Skipped, w) /\
     match List.find (Mongo.active_for org) (configs w) with
     | Some c => events_get (events c) ev = false
     | None => True
     end) \/
  (exists c, mongoUp w = true /\ List.find (Mongo.active_for org) (configs w) = Some c /\
     events_get (events c) ev = true /\
     ((redisUp w = true /\
       r = (Ok (Queued "Webhook queued for delivery"),
            set_queue (queue w ++ [job_for c ev org data w]) w)) \/
      (redisUp w = false /\ exists e, fst r = Throw e /\ requests (snd r) = requests w))).
Proof.
  cbv zeta.
  unfold WebhookService.sendWebhook, try_catch, bind, Mongo.findOne, Mongo.query, ret, throw,
    console_error, now, WebhookService.queue_add. cbn [WebhookService.redisEnabled].
  destruct (mongoUp w) eqn:Hm; cbn.
  2:{ left. eauto. }
  right. destruct (List.find (Mongo.active_for org) (configs w)) as [c|] eqn:Hf; cbn.
  2:{ left. auto. }
  destruct (events_get (events c) ev) eqn:He; cbn.
  2:{ left. auto. }
  right. exists c. split; [reflexivity|]. split; [reflexivity|]. split; [exact He|].
  destruct (redisUp w) eqn:Hr; cbn; [left | right]; split; try reflexivity.
  eexists. split; reflexivity.
Qed.


(** C5: when the tenant has no configuration, or only an inactive one, or
    the event type is not enabled, [sendWebhook] resolves with [null]
    (no error) and leaves the world as it was: no HTTP request is issued
    and nothing is queued. *)
Theorem C5_skipped_is_noop (self : WebhookService.t) (org eventType : string)
    (data : JSON.value) (w : World) :
  mongoUp w = true ->
  (forall c, In c (configs w) -> organization c <> org) \/
  (forall c, In c (configs w) -> organization c = org -> isActive c = false) \/
  (exists c, List.find (Mongo.active_for org) (configs w) = Some c /\
             events_get (events c) eventType = false) ->
  WebhookService.sendWebhook self org eventType data w = (Ok Skipped, w).
Proof.
  intros Hm H.
  unfold WebhookService.sendWebhook, try_catch, bind, Mongo.findOne, Mongo.query, ret.
  rewrite Hm.
  destruct H as [H | [H | (c & Hf & He)]].
  - rewrite find_none_inactive; [reflexivity |]. intros c Hin Ho. now destruct (H c Hin).
  - now rewrite find_none_inactive.
  - rewrite Hf, He. reflexivity.
Qed.

(** Scenario C: [userAdded] is not enabled for the tenant. *)
Lemma C5_skipped_is_noop_witness :
  WebhookService.sendWebhook Scenario.queued "org1" "userAdded" (JSON.Obj []) (Scenario.world [])
  = (Ok Skipped, Scenario.world []).
Proof.
  apply (C5_skipped_is_noop Scenario.queued "org1" "userAdded" (JSON.Obj []) (Scenario.world [])).
  - reflexivity.
  - right. right. exists Scenario.tenant. split; vm_compute; reflexivity.
Defined.

(** C2, the claim as stated fails: without a queue a refused delivery
    makes [sendWebhook] reject towards its caller. *)
Lemma C2_direct_mode_rejects :
  fst (WebhookService.sendWebhook Scenario.direct "org1" "cardExtracted" (JSON.Obj [])
         (Scenario.world [Scenario.server_error])) =
  Throw "Webhook delivery failed: Webhook delivery failed (attempt 1): HTTP 500: Internal Server Error".
Proof. vm_compute. reflexivity. Qed.

(** Without a queue [sendWebhook] rejects exactly when MongoDB cannot
    be reached or the one delivery attempt it makes throws. *)
Lemma sendWebhook_direct_rejects_iff org ev data w :
  (exists e, fst (WebhookService.sendWebhook {| WebhookService.redisEnabled := false |}
                    org ev data w) = Throw e) <->
  mongoUp w = false \/
  exists c, List.find (Mongo.active_for org) (configs w) = Some c /\
            events_get (events c) ev = true /\
            is_ok (fst (WebhookService.deliverWebhook c
                          (WebhookService.envelope ev (clock w) org data) 1 w)) = false.
Proof.
  unfold WebhookService.sendWebhook, try_catch, bind, Mongo.findOne, Mongo.query, ret, throw,
    now, console_error. cbn [WebhookService.redisEnabled].
  destruct (mongoUp w); cbn; [|split; eauto].
  destruct (List.find (Mongo.active_for org) (configs w)) as [c|]; cbn.
  2:{ split; [intros [e He]; discriminate | intros [H | (c & H & _)]; discriminate]. }
  destruct (events_get (events c) ev) eqn:Hev; cbn.
  2:{ split; [intros [e He]; discriminate |].
      intros [H | (c' & H & Hev' & _)]; [discriminate | congruence]. }
  destruct (WebhookService.deliverWebhook c (WebhookService.envelope ev (clock w) org data) 1 w)
    as [[r|e] w1] eqn:Hd; cbn.
  - split; [intros [e He]; discriminate |].
    intros [H | (c' & H & _ & Hok)]; [discriminate |].
    injection H as <-. rewrite Hd in Hok. discriminate.
  - split; [|eauto]. intros _. right. exists c. rewrite Hd. auto.
Qed.

(** With a queue it makes no request, and rejects exactly when MongoDB
    cannot be reached, or Redis for an event that is to be delivered. *)
Lemma sendWebhook_queued_rejects_iff org ev data w :
  let r := WebhookService.sendWebhook {| WebhookService.redisEnabled := true |} org ev data w in
  requests (snd r) = requests w /\
  network (snd r) = network w /\
  ((exists e, fst r = Throw e) <->
   mongoUp w = false \/
   (redisUp w = false /\
    exists c, List.find (Mongo.active_for org) (configs w) = Some c /\
              events_get (events c) ev = true)).
Proof.
  intros r. subst r.
  destruct (sendWebhook_queued_cases org ev data w)
    as [[Hm [e He]] | [(Hm & Hr & Hf) | (c & Hm & Hf & Hev & [[Hr Hq] | (Hr & e & He & Hq)])]].
  - unfold WebhookService.sendWebhook, try_catch, bind, Mongo.findOne, Mongo.query in *.
    rewrite Hm in *. cbn. repeat split; eauto.
  - rewrite Hr. cbn. repeat split; try reflexivity.
    + intros [e He]. discriminate.
    + intros [H | (_ & c & Hc & Hev)]; [congruence |]. rewrite Hc in Hf. congruence.
  - rewrite Hq. cbn. repeat split; try reflexivity.
    + intros [e He]. discriminate.
    + intros [H | [H _]]; congruence.
  - split; [exact Hq |]. split.
    + unfold WebhookService.sendWebhook, try_catch, bind, Mongo.findOne, Mongo.query,
        WebhookService.queue_add, now, console_error, throw.
      rewrite Hm, Hf, Hev. cbn. rewrite Hr. reflexivity.
    + split; [intros _; right; eauto | intros _; eauto].
Qed.

(** C2 (as the code has it): in queued mode [sendWebhook] issues no HTTP
    request and consumes no answer of the endpoint, so no delivery failure
    can reach its caller; it rejects only when MongoDB cannot be reached,
    or Redis for an event that is to be delivered.  Without a queue it
    rejects when MongoDB cannot be reached and whenever its delivery
    attempt fails. *)
Theorem C2_sendWebhook_rejections (org eventType : string)
    (data : JSON.value) (w : World) :
  let r := WebhookService.sendWebhook {| WebhookService.redisEnabled := true |}
             org eventType data w in
  let r' := WebhookService.sendWebhook {| WebhookService.redisEnabled := false |}
              org eventType data w in
  requests (snd r) = requests w /\
  network (snd r) = network w /\
  ((exists e, fst r = Throw e) <->
   mongoUp w = false \/
   (redisUp w = false /\
    exists c, List.find (Mongo.active_for org) (configs w) = Some c /\
              events_get (events c) eventType = true)) /\
  ((exists e, fst r' = Throw e) <->
   mongoUp w = false \/
   exists c, List.find (Mongo.active_for org) (configs w) = Some c /\
             events_get (events c) eventType = true /\
             is_ok (fst (WebhookService.deliverWebhook c
                           (WebhookService.envelope eventType (clock w) org data) 1 w))
               = false).
Proof.
  intros r r'. subst r r'.
  destruct (sendWebhook_queued_rejects_iff org eventType data w) as (H1 & H2 & H3).
  repeat split; try assumption; try apply H3; apply sendWebhook_direct_rejects_iff.
Qed.

(** The only caller catches the rejection and logs it. *)
Lemma cards_notify_never_rejects service org data w :
  fst (cards_notify service org data w) = Ok tt.
Proof.
  unfold cards_notify, try_catch, bind, ret, console_error.
  destruct (WebhookService.sendWebhook service org "cardExtracted" data w) as [[r|e] w'];
    reflexivity.
Qed.

(** Without a queue a delivery failure is the only thing, besides an
    unreachable MongoDB, that makes [sendWebhook] reject; one request was
    made then. *)
Lemma direct_mode_rejects_after_one_request org ev data w e :
  mongoUp w = true ->
  fst (WebhookService.sendWebhook {| WebhookService.redisEnabled := false |} org ev data w)
    = Throw e ->
  length (requests (snd (WebhookService.sendWebhook {| WebhookService.redisEnabled := false |}
                           org ev data w))) = S (length (requests w)).
Proof.
  unfold WebhookService.sendWebhook, try_catch, bind, Mongo.findOne, Mongo.query, ret, throw,
    now, console_error. cbn [WebhookService.redisEnabled]. intros ->.
  destruct (List.find _ (configs w)) as [c|]; [|discriminate].
  destruct (negb _); [discriminate |].
  unfold WebhookService.deliverWebhook, Axios.post.
  destruct (network w) as [|ex rest]; cbn; [intros _; rewrite length_app; cbn; lia |].
  destruct (30000 <=? elapsed ex); cbn; [intros _; rewrite length_app; cbn; lia |].
  destruct (reply ex) as [st txt | code msg]; cbn.
  - destruct (WebhookService.validateStatus st); cbn; [discriminate |].
    intros _. rewrite length_app. cbn. lia.
  - destruct (String.eqb code "ECONNABORTED"); cbn; [intros _; rewrite length_app; cbn; lia |].
    destruct (String.eqb code "ECONNREFUSED"); cbn; intros _; rewrite length_app; cbn; lia.
Qed.

(** ** The configuration endpoint *)

Lemma upsert_stored org f fresh cs :
  organization fresh = org ->
  (forall c, organization (f c) = organization c) ->
  List.find (Mongo.for_org org) (fst (ConfigRoute.upsert org f fresh cs))
    = Some (snd (ConfigRoute.upsert org f fresh cs)) /\
  exists c, snd (ConfigRoute.upsert org f fresh cs) = f c.
Proof.
  intros Hfresh Hf. induction cs as [|c cs IH]; simpl.
  - unfold Mongo.for_org. rewrite Hf, Hfresh, String.eqb_refl. eauto.
  - destruct (Mongo.for_org org c) eqn:E; simpl.
    + unfold Mongo.for_org in *. rewrite Hf, E. eauto.
    + destruct (ConfigRoute.upsert org f fresh cs) as [rest doc]. simpl in *.
      rewrite E. exact IH.
Qed.




(** ** One run of the processor *)

Section Processor.
Import WebhookService.

Lemma findById_eq id w :
  Mongo.findById id w = if mongoUp w then (Ok (lookup id w), w) else (Throw Mongo.unreachable, w).
Proof. reflexivity. Qed.

Lemma lookup_update_first id f cs :
  (forall c, _id (f c) = _id c) ->
  List.find (Mongo.with_id id) (Mongo.update_first id f cs) =
  f <$> List.find (Mongo.with_id id) cs.
Proof.
  intros Hf. induction cs as [|c cs IH]; simpl; [reflexivity |].
  unfold Mongo.with_id in *. destruct (String.eqb (_id c) id) eqn:E; simpl.
  - now rewrite Hf, E.
  - now rewrite E.
Qed.

Lemma deliverWebhook_world c payload attempt w :
  let w' := snd (deliverWebhook c payload attempt w) in
  configs w' = configs w /\ mongoUp w' = mongoUp w /\ queue w' = queue w /\
  requests w' = requests w ++ [request_for c payload attempt (clock w)].
Proof.
  unfold deliverWebhook, Axios.post, request_for.
  destruct (network w) as [|ex rest]; cbn; [auto |].
  destruct (30000 <=? elapsed ex); cbn; [auto |].
  destruct (reply ex) as [st txt | code msg]; cbn.
  - destruct (validateStatus st); cbn; auto.
  - destruct (String.eqb code "ECONNABORTED"); cbn; [auto |].
    destruct (String.eqb code "ECONNREFUSED"); cbn; auto.
Qed.

Lemma updateWebhookStats_world id ok rt w :
  let r := updateWebhookStats id ok rt w in
  fst r = Ok tt /\ mongoUp (snd r) = mongoUp w /\ requests (snd r) = requests w /\
  queue (snd r) = queue w /\
  (configs (snd r) = configs w \/
   exists avg, configs (snd r) =
               Mongo.update_first id (apply_stats ok avg (clock w)) (configs w)) /\
  (mongoUp w = true -> lookup id w <> None ->
   exists avg, configs (snd r) =
               Mongo.update_first id (apply_stats ok avg (clock w)) (configs w)).
Proof.
  unfold updateWebhookStats, try_catch, bind, now, ret, throw, console_error,
    Mongo.findByIdAndUpdate. cbv zeta.
  destruct (ok && (0 <? rt)); cbn.
  - rewrite findById_eq. destruct (mongoUp w) eqn:Hm; cbn.
    + destruct (lookup id w) as [c|] eqn:Hc; cbn.
      * rewrite Hm. cbn. repeat split; eauto.
      * repeat split; auto. intros _ H. now destruct H.
    + repeat split; auto. discriminate.
  - destruct (mongoUp w) eqn:Hm; cbn.
    + repeat split; eauto.
    + repeat split; auto. discriminate.
Qed.

Lemma sent_since_app w w' new :
  requests w' = requests w ++ new -> sent_since w w' = new.
Proof. intros H. unfold sent_since. rewrite H. apply drop_app_length. Qed.

Ltac stats_step id ok rt w0 w2 Hm2 Hr2 Hc2 Hc2' :=
  let u := fresh "u" in let Hu := fresh "Hu" in let H := fresh "H" in
  destruct (updateWebhookStats id ok rt w0) as [u w2] eqn:Hu;
  pose proof (updateWebhookStats_world id ok rt w0) as H;
  rewrite Hu in H; cbn in H;
  destruct H as (-> & Hm2 & Hr2 & _ & Hc2 & Hc2'); cbn.

(** One run of the processor: at most one request, made for the stored
    configuration, and one update of the stored statistics. *)
Lemma processor_world job w :
  let id := webhookConfigId (data job) in
  let r := processor job w in
  mongoUp (snd r) = mongoUp w /\
  (configs (snd r) = configs w \/
   exists avg t, configs (snd r) =
                 Mongo.update_first id (apply_stats (is_ok (fst r)) avg t) (configs w)) /\
  (mongoUp w = true -> lookup id w <> None ->
   exists avg t, configs (snd r) =
                 Mongo.update_first id (apply_stats (is_ok (fst r)) avg t) (configs w)) /\
  (requests (snd r) = requests w \/
   exists c, lookup id w = Some c /\
             requests (snd r) =
             requests w ++ [request_for c (payload (data job)) (attempt (data job)) (clock w)]).
Proof.
  cbv zeta. unfold processor, try_catch, bind, ret, throw. rewrite findById_eq.
  destruct (mongoUp w) eqn:Hm; cbn.
  - destruct (lookup (webhookConfigId (data job)) w) as [c|] eqn:Hc; cbn.
    + destruct (isActive c); cbn.
      * pose proof (deliverWebhook_world c (payload (data job)) (attempt (data job)) w) as Hd.
        destruct (deliverWebhook c (payload (data job)) (attempt (data job)) w) as [[res|e] w1];
          cbn in Hd; destruct Hd as (Hcs & Hmu & Hqu & Hrq); cbn.
        -- stats_step (webhookConfigId (data job)) true (responseTime res) w1 w2 Hm2 Hr2 Hc2 Hc2'.
           unfold lookup in Hc2'. rewrite Hmu, Hcs in *.
           fold (lookup (webhookConfigId (data job)) w) in Hc2'.
           rewrite Hm2, Hr2, Hrq. repeat split; auto.
           ++ destruct Hc2 as [-> | [avg ->]]; eauto.
           ++ intros _ Hne. destruct (Hc2' Hm) as [avg ->]; [congruence | eauto].
           ++ right. exists c. auto.
        -- stats_step (webhookConfigId (data job)) false 0 w1 w2 Hm2 Hr2 Hc2 Hc2'.
           unfold lookup in Hc2'. rewrite Hmu, Hcs in *.
           fold (lookup (webhookConfigId (data job)) w) in Hc2'.
           rewrite Hm2, Hr2, Hrq. repeat split; auto.
           ++ destruct Hc2 as [-> | [avg ->]]; eauto.
           ++ intros _ Hne. destruct (Hc2' Hm) as [avg ->]; [congruence | eauto].
           ++ right. exists c. auto.
      * stats_step (webhookConfigId (data job)) false 0 w w2 Hm2 Hr2 Hc2 Hc2'.
        rewrite Hm2, Hr2. repeat split; auto.
        -- destruct Hc2 as [-> | [avg ->]]; eauto.
        -- intros _ Hne. destruct (Hc2' Hm) as [avg ->]; [congruence | eauto].
    + stats_step (webhookConfigId (data job)) false 0 w w2 Hm2 Hr2 Hc2 Hc2'.
      rewrite Hm2, Hr2. repeat split; auto.
      * destruct Hc2 as [-> | [avg ->]]; eauto.
      * intros _ Hne. now destruct Hne.
  - stats_step (webhookConfigId (data job)) false 0 w w2 Hm2 Hr2 Hc2 Hc2'.
    rewrite Hm2, Hr2. repeat split; auto.
    + destruct Hc2 as [-> | [avg ->]]; eauto.
    + discriminate.
Qed.

End Processor.

(** ** The retry loop *)

Section RetryLoop.
Context {R : Type}.
Variable processor : Job -> M R.
Variable on_completed : Job -> M unit.
Variable on_failed : Job -> string -> M unit.
Variable meanwhile : nat -> World -> World.

#[local] Abbreviation work := (BullMQ.work processor on_completed on_failed meanwhile).

(** The test [attemptsMade < opts.attempts] for a whole number of attempts. *)
Lemma retry_test (a : Q) (N made : nat) :
  (a == inject_Z (Z.of_nat N))%Q ->
  negb (Qle_bool a (inject_Z (Z.of_nat made))) = (made <? N)%nat.
Proof.
  intros Ha. destruct (Nat.ltb_spec made N) as [Hlt | Hge].
  - apply negb_true_iff. destruct (Qle_bool a (inject_Z (Z.of_nat made))) eqn:E; [|reflexivity].
    apply Qle_bool_iff in E. rewrite Ha in E. rewrite <- Zle_Qle in E. lia.
  - apply negb_false_iff. apply Qle_bool_iff. rewrite Ha. rewrite <- Zle_Qle. lia.
Qed.

Lemma work_bounded (N : nat) (fuel : nat) : forall (job : Job) (w : World),
  (attempts (opts job) == inject_Z (Z.of_nat N))%Q ->
  (attemptsMade job < N)%nat ->
  let rep := fst (work fuel job w) in
  (BullMQ.tries rep + attemptsMade job <= N)%nat /\
  ((N - attemptsMade job <= fuel)%nat ->
     BullMQ.outcome rep <> BullMQ.Active /\
     (1 <= BullMQ.tries rep)%nat /\
     length (BullMQ.delays rep) = (BullMQ.tries rep - 1)%nat /\
     (forall e, BullMQ.outcome rep = BullMQ.Failed e ->
                (BullMQ.tries rep + attemptsMade job = N)%nat)).
Proof.
  induction fuel as [|fuel IH]; intros job w Ha Hm; cbn.
  - split; [lia | intros; lia].
  - destruct (processor job w) as [[r|e] w1]; cbn.
    + split; [lia |]. intros _. repeat split; try discriminate; lia.
    + rewrite (retry_test _ N _ Ha).
      destruct (Nat.ltb_spec (S (attemptsMade job)) N) as [Hlt | Hge].
      * specialize (IH (BullMQ.retry job (S (attemptsMade job)))
                       (meanwhile (S (attemptsMade job))
                          (set_clock (clock (snd (on_failed job e w1)) +
                                      BullMQ.backoff_delay (backoff (opts job))
                                        (S (attemptsMade job)))
                                     (snd (on_failed job e w1)))) Ha Hlt).
        cbn in IH.
        destruct (work fuel (BullMQ.retry job (S (attemptsMade job))) _) as [rep w4].
        cbn in *. destruct IH as [IH1 IH2]. split; [lia |].
        intros Hf. destruct IH2 as (Hact & Hone & Hlen & Hfail); [lia |].
        repeat split; [exact Hact | lia | lia |].
        intros e' He'. specialize (Hfail e' He'). lia.
      * cbn. split; [lia |]. intros _. repeat split; try discriminate; try lia.
Qed.


(** The waits are the queue's exponential backoff of the job's [delay]. *)
Lemma work_delays (fuel : nat) : forall (job : Job) (w : World),
  BullMQ.delays (fst (work fuel job w)) =
  (fun k => BullMQ.backoff_delay (backoff (opts job)) k) <$>
    seq (S (attemptsMade job)) (length (BullMQ.delays (fst (work fuel job w)))).
Proof.
  induction fuel as [|fuel IH]; intros job w; cbn; [reflexivity |].
  destruct (processor job w) as [[r|e] w1]; cbn; [reflexivity |].
  destruct (negb _); cbn; [|reflexivity].
  match goal with |- context [work fuel ?j ?w'] => specialize (IH j w') end.
  destruct (work fuel _ _) as [rep w4]. cbn in *. f_equal. exact IH.
Qed.

End RetryLoop.

(** ** Statistics and requests of a job *)

Section JobRun.
Import WebhookService.
Variable id : string.
Variable meanwhile : nat -> World -> World.

Lemma lookup_after_handlers job e w d :
  lookup id (set_clock d (snd (on_failed job e w))) = lookup id w /\
  mongoUp (set_clock d (snd (on_failed job e w))) = mongoUp w /\
  requests (set_clock d (snd (on_failed job e w))) = requests w /\
  lookup id (snd (on_failed job e w)) = lookup id w /\
  mongoUp (snd (on_failed job e w)) = mongoUp w /\
  requests (snd (on_failed job e w)) = requests w /\
  lookup id (snd (on_completed job w)) = lookup id w /\
  mongoUp (snd (on_completed job w)) = mongoUp w /\
  requests (snd (on_completed job w)) = requests w.
Proof. repeat split. Qed.

Lemma apply_stats_counts ok avg t c :
  _id (apply_stats ok avg t c) = _id c /\
  url (apply_stats ok avg t c) = url c /\
  secret (apply_stats ok avg t c) = secret c /\
  headers (apply_stats ok avg t c) = headers c /\
  totalSent (stats (apply_stats ok avg t c)) = totalSent (stats c) + 1 /\
  successCount (stats (apply_stats ok avg t c)) =
    successCount (stats c) + (if ok then 1 else 0) /\
  failureCount (stats (apply_stats ok avg t c)) =
    failureCount (stats c) + (if ok then 0 else 1).
Proof. destruct ok; cbn; repeat split; lia. Qed.

Lemma processor_lookup job w :
  webhookConfigId (data job) = id ->
  (lookup id (snd (processor job w)) = lookup id w \/
   exists avg t, lookup id (snd (processor job w)) =
                 apply_stats (is_ok (fst (processor job w))) avg t <$> lookup id w) /\
  (mongoUp w = true -> lookup id w <> None ->
   exists avg t, lookup id (snd (processor job w)) =
                 apply_stats (is_ok (fst (processor job w))) avg t <$> lookup id w).
Proof.
  intros <-. destruct (processor_world job w) as (_ & Hc & Hc' & _). split.
  - destruct Hc as [Hc | (avg & t & Hc)]; [left | right; exists avg, t];
      unfold lookup; rewrite Hc; [reflexivity |].
    apply lookup_update_first. intros c. apply apply_stats_counts.
  - intros Hm Hne. destruct (Hc' Hm Hne) as (avg & t & Hcs). exists avg, t.
    unfold lookup. rewrite Hcs. apply lookup_update_first. intros c. apply apply_stats_counts.
Qed.

Hypothesis keeps : forall n w,
  mongoUp (meanwhile n w) = mongoUp w /\ lookup id (meanwhile n w) = lookup id w.

(** Every run of the processor is counted: once in [totalSent], and in
    [failureCount] unless it is the run that delivers. *)
Lemma worker_stats (fuel : nat) : forall (job : Job) (w : World) (c : WebhookConfig),
  webhookConfigId (data job) = id ->
  mongoUp w = true ->
  lookup id w = Some c ->
  let r := initializeWorker meanwhile fuel job w in
  mongoUp (snd r) = true /\
  exists c', lookup id (snd r) = Some c' /\
    totalSent (stats c') = totalSent (stats c) + Z.of_nat (BullMQ.tries (fst r)) /\
    successCount (stats c') =
      successCount (stats c) + (if delivered (BullMQ.outcome (fst r)) then 1 else 0) /\
    failureCount (stats c') =
      failureCount (stats c) + Z.of_nat (BullMQ.tries (fst r))
      - (if delivered (BullMQ.outcome (fst r)) then 1 else 0).
Proof.
  unfold initializeWorker.
  induction fuel as [|fuel IH]; intros job w c Hid Hm Hc; cbn [BullMQ.work].
  - cbn. split; [exact Hm |]. exists c. repeat split; [exact Hc | lia ..].
  - destruct (processor_lookup job w Hid) as [_ Hup].
    destruct (Hup Hm) as (avg & t & Hl); [congruence |].
    pose proof (processor_world job w) as (Hmu & _).
    destruct (processor job w) as [[r|e] w1]; cbn [fst snd is_ok] in *.
    + pose proof (lookup_after_handlers job "" w1 0) as (_ & _ & _ & _ & _ & _ & Hl' & Hm' & _).
      cbn [fst snd BullMQ.tries BullMQ.outcome delivered].
      rewrite Hm', Hmu, Hl', Hl, Hc. split; [exact Hm |].
      eexists. split; [reflexivity |].
      pose proof (apply_stats_counts true avg t c) as (_ & _ & _ & _ & H1 & H2 & H3).
      rewrite H1, H2, H3. repeat split; lia.
    + pose proof (apply_stats_counts false avg t c) as (_ & _ & _ & _ & H1 & H2 & H3).
      destruct (negb _).
      * match goal with
        | |- context [BullMQ.work _ _ _ _ fuel ?j (meanwhile ?n ?w')] =>
            specialize (IH j (meanwhile n w') (apply_stats false avg t c) Hid);
            destruct (keeps n w') as [Hk1 Hk2];
            pose proof (lookup_after_handlers job e w1
                          (clock (snd (on_failed job e w1)) +
                           BullMQ.backoff_delay (backoff (opts job)) n))
              as (Ha & Hb & _)
        end.
        rewrite Hk1, Hk2, Ha, Hb, Hmu, Hl, Hc in IH.
        destruct IH as [IHm (c' & IHl & I1 & I2 & I3)]; [exact Hm | reflexivity |].
        destruct (BullMQ.work _ _ _ _ fuel _ _) as [rep w4].
        cbn [fst snd BullMQ.tries BullMQ.outcome] in *.
        split; [exact IHm |]. exists c'. split; [exact IHl |].
        rewrite I1, I2, I3, H1, H2, H3. repeat split; lia.
      * pose proof (lookup_after_handlers job e w1 0) as (_ & _ & _ & Hl' & Hm' & _).
        cbn [fst snd BullMQ.tries BullMQ.outcome delivered].
        rewrite Hm', Hmu, Hl', Hl, Hc. split; [exact Hm |].
        eexists. split; [reflexivity |]. rewrite H1, H2, H3. repeat split; lia.
Qed.

End JobRun.

Section JobRequests.
Import WebhookService.
Variable id : string.
Variable meanwhile : nat -> World -> World.
(** A property of the stored configuration that updates of the
    statistics cannot change. *)
Variable Q : WebhookConfig -> Prop.

#[local] Abbreviation holds_for := (holds_for id Q).

Hypothesis Q_stats : forall ok avg t c, Q c -> Q (apply_stats ok avg t c).
Hypothesis meanwhile_requests : forall n w, requests (meanwhile n w) = requests w.
Hypothesis meanwhile_Q : forall n w, holds_for w -> holds_for (meanwhile n w).

Lemma processor_keeps job w :
  webhookConfigId (data job) = id -> holds_for w -> holds_for (snd (processor job w)).
Proof.
  intros Hid HQ c'. destruct (processor_lookup id job w Hid) as [[Hl | (avg & t & Hl)] _];
    rewrite Hl; [apply HQ |].
  destruct (lookup id w) as [c|] eqn:Hc; [|discriminate].
  cbn. intros H. injection H as <-. apply Q_stats, HQ, Hc.
Qed.

(** Every request of a job's run is [request_for] a configuration stored
    under the job's id, with the payload and attempt number of the job's
    [data]. *)
Lemma worker_requests (fuel : nat) : forall (job : Job) (w : World),
  webhookConfigId (data job) = id ->
  holds_for w ->
  let w' := snd (initializeWorker meanwhile fuel job w) in
  requests w' = requests w ++ sent_since w w' /\
  (length (sent_since w w') <= BullMQ.tries (fst (initializeWorker meanwhile fuel job w)))%nat /\
  Forall (fun r => exists c t, Q c /\
                     r = request_for c (payload (data job)) (attempt (data job)) t)
         (sent_since w w').
Proof.
  unfold initializeWorker.
  induction fuel as [|fuel IH]; intros job w Hid HQ; cbn [BullMQ.work].
  - cbn [snd fst BullMQ.tries]. rewrite (sent_since_app w w []); [|now rewrite app_nil_r].
    rewrite app_nil_r. auto.
  - pose proof (processor_keeps job w Hid HQ) as HQ1.
    pose proof (processor_world job w) as (_ & _ & _ & Hreq).
    assert (Hnew : exists new, requests (snd (processor job w)) = requests w ++ new /\
              (length new <= 1)%nat /\
              Forall (fun r => exists c t, Q c /\
                        r = request_for c (payload (data job)) (attempt (data job)) t) new).
    { destruct Hreq as [Hreq | (c & Hc & Hreq)].
      - exists []. rewrite app_nil_r. cbn. auto.
      - eexists. split; [exact Hreq |]. split; [cbn; lia |].
        constructor; [|constructor]. exists c, (clock w). rewrite Hid in Hc.
        split; [exact (HQ c Hc) | reflexivity]. }
    destruct Hnew as (new & Hnew & Hlen & Hall).
    destruct (processor job w) as [[r|e] w1]; cbn [fst snd] in *.
    + cbn [BullMQ.tries].
      rewrite (sent_since_app w _ new); [auto | exact Hnew].
    + destruct (negb _).
      * match goal with
        | |- context [BullMQ.work _ _ _ _ fuel ?j (meanwhile ?n ?w')] =>
            specialize (IH j (meanwhile n w') Hid);
            pose proof (meanwhile_requests n w') as Hmr;
            assert (HQ3 : holds_for (meanwhile n w')) by (apply meanwhile_Q; exact HQ1)
        end.
        specialize (IH HQ3). cbn [BullMQ.retry data] in IH.
        destruct (BullMQ.work _ _ _ _ fuel _ _) as [rep w4].
        cbn [fst snd BullMQ.tries] in *. destruct IH as (IH1 & IH2 & IH3).
        match type of Hmr with
        | _ = requests (set_clock ?d _) =>
            pose proof (lookup_after_handlers id job e w1 d) as (_ & _ & Hrq3 & _)
        end.
        rewrite Hrq3, Hnew in Hmr.
        match type of IH1 with
        | _ = _ ++ ?l => remember l as new' eqn:Enew; clear Enew
        end.
        rewrite Hmr, <- app_assoc in IH1.
        rewrite (sent_since_app w w4 _ IH1).
        split; [exact IH1 |]. split; [rewrite length_app; lia |].
        apply Forall_app. split; [exact Hall | exact IH3].
      * cbn [fst snd BullMQ.tries].
        rewrite (sent_since_app w _ new); [auto | exact Hnew].
Qed.

End JobRequests.

(** ** Dispatched jobs *)


(** The delays of a dispatched job double from [retryDelay]. *)
Lemma job_delays_exponential c ev org data w0 meanwhile fuel w :
  let rep := fst (WebhookService.initializeWorker meanwhile fuel (job_for c ev org data w0) w) in
  BullMQ.delays rep =
  (fun k => BullMQ.js_round (inject_Z (2 ^ Z.of_nat (k - 1)) * retryDelay (retryConfig c))%Q)
    <$> seq 1 (length (BullMQ.delays rep)).
Proof. cbv zeta. unfold WebhookService.initializeWorker. now rewrite work_delays at 1. Qed.

(** Whatever the queue does with a job, it cannot depend on the stored
    [backoffMultiplier]: two tenants that differ only there queue the same
    job. *)
Lemma job_ignores_backoffMultiplier (retries delay m1 m2 : Q) ev org data w :
  job_for (Scenario.tenant_with retries delay m1) ev org data w =
  job_for (Scenario.tenant_with retries delay m2) ev org data w.
Proof. reflexivity. Qed.

(** Without a queue nothing is ever written to the statistics. *)
Lemma direct_mode_leaves_stats org ev data w :
  configs (snd (WebhookService.sendWebhook {| WebhookService.redisEnabled := false |}
                  org ev data w)) = configs w.
Proof.
  unfold WebhookService.sendWebhook, try_catch, bind, Mongo.findOne, Mongo.query, ret, throw,
    now, console_error. cbn [WebhookService.redisEnabled].
  destruct (mongoUp w); [|reflexivity].
  destruct (List.find _ (configs w)) as [c|]; [|reflexivity].
  destruct (negb _); [reflexivity |].
  pose proof (deliverWebhook_world c (WebhookService.envelope ev (clock w) org data) 1 w)
    as (H & _).
  destruct (WebhookService.deliverWebhook _ _ _ w) as [[r|e] w1]; exact H.
Qed.

(** C1, the claim as stated fails: in scenario A (two refusals, then a
    success) the one job adds 3 to [totalSent] and 2 to [failureCount]. *)
Lemma C1_one_job_counted_three_times :
  Scenario.summary Scenario.retried_then_delivered = Some (3%nat, [100; 200], 3%nat) /\
  Scenario.stats_after Scenario.retried_then_delivered =
  Some {| totalSent := totalSent (stats Scenario.tenant) + 3;
          successCount := successCount (stats Scenario.tenant) + 1;
          failureCount := failureCount (stats Scenario.tenant) + 2;
          averageResponseTime := 30 |}.
Proof. vm_compute. split; reflexivity. Qed.

(** C1 (as the code has it): the statistics are updated once per run of
    the processor.  While the configuration stays in the collection, a job
    that was processed [tries] times adds [tries] to [totalSent], adds 1 to
    [successCount] when it is finally delivered, and adds every failed run,
    the retried ones included, to [failureCount]. *)
Theorem C1_stats_updated_once_per_attempt
    (meanwhile : nat -> World -> World) (fuel : nat) (job : Job) (w : World)
    (c : WebhookConfig) :
  (forall n w, mongoUp (meanwhile n w) = mongoUp w /\
               lookup (webhookConfigId (data job)) (meanwhile n w) =
               lookup (webhookConfigId (data job)) w) ->
  mongoUp w = true ->
  lookup (webhookConfigId (data job)) w = Some c ->
  let r := WebhookService.initializeWorker meanwhile fuel job w in
  exists c', lookup (webhookConfigId (data job)) (snd r) = Some c' /\
    totalSent (stats c') = totalSent (stats c) + Z.of_nat (BullMQ.tries (fst r)) /\
    successCount (stats c') =
      successCount (stats c) + (if delivered (BullMQ.outcome (fst r)) then 1 else 0) /\
    failureCount (stats c') =
      failureCount (stats c) + Z.of_nat (BullMQ.tries (fst r))
      - (if delivered (BullMQ.outcome (fst r)) then 1 else 0).
Proof.
  intros Hk Hm Hc.
  exact (proj2 (worker_stats _ meanwhile Hk fuel job w c eq_refl Hm Hc)).
Qed.

Lemma C1_stats_updated_once_per_attempt_witness :
  let r := WebhookService.initializeWorker Scenario.quiet 10
             (Scenario.job Scenario.refused_twice) (Scenario.waiting Scenario.refused_twice) in
  exists c', lookup "cfg1" (snd r) = Some c' /\
    totalSent (stats c') = 0 + Z.of_nat (BullMQ.tries (fst r)) /\
    successCount (stats c') = 0 + (if delivered (BullMQ.outcome (fst r)) then 1 else 0) /\
    failureCount (stats c') =
      0 + Z.of_nat (BullMQ.tries (fst r))
      - (if delivered (BullMQ.outcome (fst r)) then 1 else 0).
Proof.
  apply (C1_stats_updated_once_per_attempt Scenario.quiet 10
           (Scenario.job Scenario.refused_twice) (Scenario.waiting Scenario.refused_twice)
           Scenario.tenant).
  - intros n w. split; reflexivity.
  - reflexivity.
  - vm_compute. reflexivity.
Defined.

(** C3, at a tenant that asks for a multiplier of 3 (or of 1) with an
    initial delay of 1000 ms: the job waits 1000 ms and then 2000 ms, where
    the formula of the specification gives 3000 ms (or 1000 ms) for the
    second wait. *)
Theorem C3_delays_ignore_backoffMultiplier :
  Scenario.summary (Scenario.refused_with_multiplier 3) = Some (3%nat, [1000; 2000], 3%nat) /\
  Scenario.summary (Scenario.refused_with_multiplier 1) = Some (3%nat, [1000; 2000], 3%nat) /\
  Qred (spec_delay 1000 3 2) = 3000%Q /\
  Qred (spec_delay 1000 1 2) = 1000%Q.
Proof. vm_compute. repeat split; reflexivity. Qed.



Example scenario_B :
  Scenario.summary (Scenario.dispatch_and_work Scenario.quiet 10 "org1" "cardExtracted"
                      (JSON.Obj []) (Scenario.world Scenario.refused_always))
    = Some (3%nat, [100; 200], 3%nat).
Proof. vm_compute. reflexivity. Qed.

(** ** Payload, signature and headers of the attempts *)

Lemma custom_untouched (hs : list Header) (n : string) (obj : gmap string string) :
  Forall (fun h => name h <> n) hs -> foldl WebhookService.set_custom obj hs !! n = obj !! n.
Proof.
  revert obj. induction hs as [|h hs IH]; intros obj Hn; [reflexivity |].
  inversion Hn as [|? ? Hh Hrest]; subst. cbn. rewrite (IH _ Hrest).
  unfold WebhookService.set_custom. destruct (String.eqb (name h) "__proto__"); [reflexivity |].
  now rewrite lookup_insert_ne.
Qed.

(** A custom header is written after the defaults: the last header of a
    name decides the value sent under that name, whether or not a
    default of that name exists. *)
Lemma custom_header_overrides c payload attempt before after n v :
  headers c = before ++ {| name := n; value := v |} :: after ->
  Forall (fun h => name h <> n) after ->
  n <> "__proto__" ->
  WebhookService.request_headers c payload attempt !! n = Some v.
Proof.
  intros Hh Hafter Hn. unfold WebhookService.request_headers. rewrite Hh, foldl_app. cbn.
  rewrite (custom_untouched after n _ Hafter). unfold WebhookService.set_custom at 1. cbn.
  apply String.eqb_neq in Hn. rewrite Hn. apply lookup_insert_eq.
Qed.

(** The defaults reach the wire for every name no custom header uses. *)
Lemma default_header_kept c payload attempt n :
  Forall (fun h => name h <> n) (headers c) ->
  WebhookService.request_headers c payload attempt !! n =
  WebhookService.default_headers
    (WebhookService.generateSignature (Envelope.to_json payload) (secret c)) payload attempt !! n.
Proof. intros H. unfold WebhookService.request_headers. now apply custom_untouched. Qed.

(** The six default headers of an attempt. *)
Lemma default_headers_values signature payload attempt :
  let h := WebhookService.default_headers signature payload attempt in
  h !! "Content-Type" = Some "application/json" /\
  h !! "User-Agent" = Some "BusinessCardExtractor/1.0" /\
  h !! "X-Signature-256" = Some signature /\
  h !! "X-Event-Type" = Some (Envelope.event payload) /\
  h !! "X-Timestamp" = Some (Envelope.timestamp payload) /\
  h !! "X-Attempt" = Some (pretty attempt).
Proof.
  cbv zeta. unfold WebhookService.default_headers.
  repeat split; repeat (rewrite lookup_insert_ne by discriminate); apply lookup_insert_eq.
Qed.

(** Every request of a dispatched job is made with attempt number 1. *)
Lemma dispatched_requests_say_attempt_1 c ev org data w0 meanwhile fuel w :
  (forall n w, requests (meanwhile n w) = requests w) ->
  Forall (fun r => exists c' t,
            r = request_for c' (WebhookService.envelope ev (clock w0) org data) 1 t)
         (sent_since w (snd (WebhookService.initializeWorker meanwhile fuel
                               (job_for c ev org data w0) w))).
Proof.
  intros Hreq.
  pose proof (worker_requests (_id c) meanwhile (fun _ => True)
                (fun _ _ _ _ _ => I) Hreq (fun _ _ _ _ _ => I) fuel (job_for c ev org data w0) w
                eq_refl (fun _ _ => I)) as (_ & _ & H).
  eapply Forall_impl; [exact H |]. intros r (c' & t & _ & ->). eauto.
Qed.




(** C7, in scenario A: the job is processed three times and each of the
    three requests says [X-Attempt: 1], because the attempt number is read
    from the job's data, which is written once when the job is queued. *)
Theorem C7_X_Attempt_stays_1_on_retries :
  Scenario.summary Scenario.retried_then_delivered = Some (3%nat, [100; 200], 3%nat) /\
  Scenario.header_of "X-Attempt" Scenario.retried_then_delivered =
  [Some "1"; Some "1"; Some "1"].
Proof. vm_compute. split; reflexivity. Qed.

(** C8, the claim as stated fails: for a candidate of another length
    [verifySignature] throws, it does not return a boolean. *)
Lemma C8_verifySignature_throws :
  WebhookService.verifySignature (JSON.Obj []) "sha256=00" "ssssssssssssssss" =
  Throw "Input buffers must have the same byte length".
Proof. vm_compute. reflexivity. Qed.

(** C8 (as the code has it): the signature is ['sha256='] followed by the
    hexadecimal HMAC-SHA256, under the tenant's secret, of the very bytes
    that the attempt sends as its body; a genuine signature verifies; and
    [verifySignature] answers with a boolean for every candidate of the
    expected 71 bytes. *)
Theorem C8_signature_is_hmac_of_the_body
    (c : WebhookConfig) (payload : Envelope.t) (attempt : Z) (w : World) :
  let w' := snd (WebhookService.deliverWebhook c payload attempt w) in
  let signature := WebhookService.generateSignature (Envelope.to_json payload) (secret c) in
  (exists req, requests w' = requests w ++ [req] /\
     signature = "sha256=" +:+ Bytes.hex (Hmac.sha256 (Bytes.of_string (secret c))
                                            (Bytes.of_string (req_body req)))) /\
  WebhookService.verifySignature (Envelope.to_json payload) signature (secret c) = Ok true /\
  (forall candidate, String.length candidate = 71%nat ->
     WebhookService.verifySignature (Envelope.to_json payload) candidate (secret c) =
     Ok (String.eqb candidate signature)).
Proof.
  cbv zeta. split; [|split].
  - destruct (deliverWebhook_world c payload attempt w) as (_ & _ & _ & Hr).
    eexists. split; [exact Hr | reflexivity].
  - rewrite verifySignature_eq, generateSignature_length, String.eqb_refl. reflexivity.
  - intros candidate Hlen. rewrite verifySignature_eq, Hlen. reflexivity.
Qed.

(** Scenario D: a manual test performs one attempt and writes nothing to
    the collection, whatever the endpoint answers. *)
Lemma testWebhook_leaves_stats org testPayload w :
  configs (snd (WebhookService.testWebhook org testPayload w)) = configs w /\
  (length (requests (snd (WebhookService.testWebhook org testPayload w)))
   <= S (length (requests w)))%nat.
Proof.
  unfold WebhookService.testWebhook, try_catch, bind, Mongo.findOne, Mongo.query, ret, throw, now.
  destruct (mongoUp w); [|cbn; split; [reflexivity | lia]].
  destruct (List.find _ (configs w)) as [c|]; [|cbn; split; [reflexivity | lia]].
  match goal with
  | |- context [WebhookService.deliverWebhook c ?p 1 w] =>
      pose proof (deliverWebhook_world c p 1 w) as (H & _ & _ & Hr);
      destruct (WebhookService.deliverWebhook c p 1 w) as [[r|e] w1]
  end; cbn in *; rewrite Hr, length_app; cbn; split; [exact H | lia | exact H | lia].
Qed.

(** * Further properties of the code *)

(** ** One delivery attempt *)

(** X1: an attempt issues exactly one request and takes at most the 30 s
    of the timeout; when it resolves, the result reports a status in
    [200, 300), a response time in [0, 30000) and the attempt number it was
    given; when it rejects, the message is ['Webhook delivery failed
    (attempt N): '] followed by the reason. *)
Theorem X1_deliverWebhook_result
    (c : WebhookConfig) (payload : Envelope.t) (attempt : Z) (w : World) :
  let out := WebhookService.deliverWebhook c payload attempt w in
  requests (snd out) = requests w ++ [request_for c payload attempt (clock w)] /\
  clock w <= clock (snd out) <= clock w + 30000 /\
  (forall r, fst out = Ok r ->
     success r = true /\ 200 <= status r < 300 /\
     responseTime r = clock (snd out) - clock w /\ 0 <= responseTime r < 30000 /\
     res_attempt r = attempt) /\
  (forall e, fst out = Throw e ->
     exists reason,
       e = "Webhook delivery failed (attempt " +:+ pretty attempt +:+ "): " +:+ reason).
Proof.
  cbv zeta. unfold WebhookService.deliverWebhook, Axios.post, request_for.
  destruct (network w) as [|ex rest]; cbn.
  { repeat split; try lia; intros; try discriminate. injection H as <-. eauto. }
  destruct (Z.leb_spec 30000 (elapsed ex)) as [Ht | Ht]; cbn.
  { repeat split; try lia; intros; try discriminate. injection H as <-. eauto. }
  destruct (reply ex) as [st txt | code msg]; cbn.
  - unfold WebhookService.validateStatus.
    destruct (Z.leb_spec 200 st), (Z.ltb_spec st 300); cbn;
      repeat split; try lia; intros; try discriminate;
      try (injection H1 as <-; cbn; repeat split; lia);
      try (injection H1 as <-; eauto).
  - destruct (String.eqb code "ECONNABORTED"); cbn;
      [|destruct (String.eqb code "ECONNREFUSED"); cbn];
      repeat split; try lia; intros; try discriminate; injection H as <-; eauto.
Qed.

(** X2: how a failed attempt is named.  An answer outside [200, 300) is
    ['HTTP <status>: <statusText>']; no answer within 30 s is ['Request
    timeout'], after exactly 30 s; a refused connection is ['Connection
    refused']. *)
Theorem X2_deliverWebhook_failure_reasons
    (c : WebhookConfig) (payload : Envelope.t) (attempt : Z) (w : World)
    (ex : Exchange) (rest : list Exchange) :
  network w = ex :: rest ->
  let out := WebhookService.deliverWebhook c payload attempt w in
  let failed reason :=
    Throw ("Webhook delivery failed (attempt " +:+ pretty attempt +:+ "): " +:+ reason) in
  network (snd out) = rest /\
  (30000 <= elapsed ex -> fst out = failed "Request timeout" /\ clock (snd out) = clock w + 30000) /\
  (elapsed ex < 30000 ->
   match reply ex with
   | Responded st txt =>
       (st < 200 \/ 300 <= st) -> fst out = failed ("HTTP " +:+ pretty st +:+ ": " +:+ txt)
   | NoResponse code msg =>
       fst out = failed (if String.eqb code "ECONNABORTED" then "Request timeout"
                         else if String.eqb code "ECONNREFUSED" then "Connection refused"
                         else msg)
   end).
Proof.
  intros Hn. cbv zeta. unfold WebhookService.deliverWebhook, Axios.post. rewrite Hn.
  destruct (Z.leb_spec 30000 (elapsed ex)) as [Ht | Ht]; cbn.
  { repeat split; auto; lia. }
  destruct (reply ex) as [st txt | code msg]; cbn.
  - unfold WebhookService.validateStatus.
    destruct (Z.leb_spec 200 st), (Z.ltb_spec st 300); cbn; repeat split; auto; try lia;
      intros _ [? | ?]; lia.
  - destruct (String.eqb code "ECONNABORTED"); cbn;
      [|destruct (String.eqb code "ECONNREFUSED"); cbn]; repeat split; auto; lia.
Qed.

Lemma X2_deliverWebhook_failure_reasons_witness :
  let w := Scenario.world [Scenario.http 404 "Not Found" 12] in
  let out := WebhookService.deliverWebhook Scenario.tenant
               (WebhookService.envelope "cardExtracted" 0 "org1" JSON.Null) 3 w in
  let failed reason :=
    Throw ("Webhook delivery failed (attempt " +:+ pretty 3 +:+ "): " +:+ reason) in
  network (snd out) = [] /\
  (30000 <= 12 -> fst out = failed "Request timeout" /\ clock (snd out) = clock w + 30000) /\
  (12 < 30000 ->
   (404 < 200 \/ 300 <= 404) -> fst out = failed ("HTTP " +:+ pretty 404 +:+ ": " +:+ "Not Found")).
Proof.
  intros w.
  exact (X2_deliverWebhook_failure_reasons Scenario.tenant
           (WebhookService.envelope "cardExtracted" 0 "org1" JSON.Null) 3 w
           (Scenario.http 404 "Not Found" 12) [] eq_refl).
Defined.

(** ** The statistics *)

Lemma update_first_absent id f cs :
  List.find (Mongo.with_id id) cs = None -> Mongo.update_first id f cs = cs.
Proof.
  induction cs as [|c cs IH]; cbn; [reflexivity |].
  destruct (Mongo.with_id id c); [discriminate |]. intros H. now rewrite IH.
Qed.

Lemma lookup_update_first_other id id' f cs :
  (forall c, _id (f c) = _id c) ->
  id' <> id ->
  List.find (Mongo.with_id id') (Mongo.update_first id f cs) = List.find (Mongo.with_id id') cs.
Proof.
  intros Hf Hne. induction cs as [|c cs IH]; cbn; [reflexivity |].
  destruct (Mongo.with_id id c) eqn:E; cbn.
  - unfold Mongo.with_id in *. rewrite Hf. apply String.eqb_eq in E.
    destruct (String.eqb_spec (_id c) id'); [congruence | reflexivity].
  - destruct (Mongo.with_id id' c); [reflexivity | exact IH].
Qed.

(** [round_div] as an integer division. *)
Lemma round_div_eq num den : 0 < den -> WebhookService.round_div num den = (2 * num + den) / (2 * den).
Proof.
  intros Hd. unfold WebhookService.round_div, Qplus, Qfloor. cbn [Qnum Qden].
  rewrite Pos2Z.inj_mul, Z2Pos.id by lia. f_equal; lia.
Qed.

Lemma round_div_between num den lo hi :
  0 < den -> lo * den <= num <= hi * den -> lo <= WebhookService.round_div num den <= hi.
Proof.
  intros Hd [Hlo Hhi]. rewrite round_div_eq by lia. split.
  - apply Z.div_le_lower_bound; nia.
  - apply Z.lt_succ_r, Z.div_lt_upper_bound; nia.
Qed.

Lemma updateWebhookStats_contained
    (id : string) (ok : bool) (rt : Z) (w : World) :
  let out := WebhookService.updateWebhookStats id ok rt w in
  fst out = Ok tt /\
  requests (snd out) = requests w /\
  queue (snd out) = queue w /\
  (forall id', id' <> id -> lookup id' (snd out) = lookup id' w) /\
  (lookup id w = None \/ mongoUp w = false -> configs (snd out) = configs w).
Proof.
  cbv zeta.
  destruct (updateWebhookStats_world id ok rt w) as (H1 & H2 & H3 & H4 & H5 & _).
  repeat split; try assumption.
  - intros id' Hne. unfold lookup. destruct H5 as [-> | [avg ->]]; [reflexivity |].
    apply lookup_update_first_other; [|exact Hne]. intros c. apply apply_stats_counts.
  - intros [Hnone | Hdown].
    + destruct H5 as [H5 | [avg H5]]; [exact H5 |]. rewrite H5.
      now apply update_first_absent.
    + unfold WebhookService.updateWebhookStats, try_catch, bind, now, ret, throw,
        console_error, Mongo.findByIdAndUpdate, Mongo.findById, Mongo.query.
      destruct (ok && (0 <? rt)); cbn; rewrite ?Hdown; cbn; rewrite ?Hdown; reflexivity.
Qed.

(** X3: [updateWebhookStats] never rejects and makes no request; it
    touches no document but the one with the given id, and nothing at all
    when that document is gone or MongoDB cannot be reached. *)
Theorem X3_updateWebhookStats_is_contained
    (id : string) (ok : bool) (rt : Z) (w : World) :
  let out := WebhookService.updateWebhookStats id ok rt w in
  fst out = Ok tt /\
  requests (snd out) = requests w /\
  queue (snd out) = queue w /\
  (forall id', id' <> id -> lookup id' (snd out) = lookup id' w) /\
  (lookup id w = None \/ mongoUp w = false -> configs (snd out) = configs w).
Proof. exact (updateWebhookStats_contained id ok rt w). Qed.

Lemma updateWebhookStats_present id ok rt w c :
  mongoUp w = true ->
  lookup id w = Some c ->
  lookup id (snd (WebhookService.updateWebhookStats id ok rt w)) =
  Some (WebhookService.apply_stats ok
          (if ok && (0 <? rt)
           then Some (WebhookService.round_div
                        (averageResponseTime (stats c) * (successCount (stats c) + 1 - 1) + rt)
                        (successCount (stats c) + 1))
           else None)
          (clock w) c).
Proof.
  intros Hm Hc.
  unfold WebhookService.updateWebhookStats, try_catch, bind, now, ret, throw, console_error,
    Mongo.findByIdAndUpdate.
  destruct (ok && (0 <? rt)); cbn.
  - rewrite findById_eq, Hm, Hc. cbn. rewrite Hm. cbn. unfold lookup. cbn.
    rewrite lookup_update_first by (intros c0; apply apply_stats_counts).
    fold (lookup id w). now rewrite Hc.
  - rewrite Hm. cbn. unfold lookup. cbn.
    rewrite lookup_update_first by (intros c0; apply apply_stats_counts).
    fold (lookup id w). now rewrite Hc.
Qed.

(** X4: a success with a positive response time moves the stored average
    to the rounded mean [(avg * n + rt) / (n + 1)] over the [n] earlier
    successes; the new average lies between the old one and the new
    response time, and is the response time itself on the first success. *)
Theorem X4_average_is_a_running_mean (id : string) (rt : Z) (w : World) (c : WebhookConfig) :
  mongoUp w = true ->
  lookup id w = Some c ->
  0 <= successCount (stats c) ->
  0 < rt ->
  let n := successCount (stats c) in
  let avg := averageResponseTime (stats c) in
  exists c', lookup id (snd (WebhookService.updateWebhookStats id true rt w)) = Some c' /\
    averageResponseTime (stats c') = (2 * (avg * n + rt) + (n + 1)) / (2 * (n + 1)) /\
    Z.min avg rt <= averageResponseTime (stats c') <= Z.max avg rt /\
    (n = 0 -> averageResponseTime (stats c') = rt) /\
    successCount (stats c') = n + 1 /\
    lastTriggered c' = Some (clock w).
Proof.
  intros Hm Hc Hn Hrt n avg.
  rewrite (updateWebhookStats_present id true rt w c Hm Hc).
  assert (Hpos : (true && (0 <? rt)) = true) by (apply Z.ltb_lt in Hrt; now rewrite Hrt).
  rewrite Hpos. fold n avg. replace (n + 1 - 1) with n by lia.
  pose proof (round_div_eq (avg * n + rt) (n + 1)) as Heq.
  pose proof (round_div_between (avg * n + rt) (n + 1) (Z.min avg rt) (Z.max avg rt)) as Hbt.
  pose proof (round_div_between (avg * n + rt) (n + 1) rt rt) as Hfirst.
  eexists. split; [reflexivity |]. cbn -[WebhookService.round_div].
  split; [apply Heq; lia |]. split; [apply Hbt; [lia | nia] |].
  split.
  { intros H0. apply Z.le_antisymm; apply Hfirst; solve [lia | nia]. }
  split; reflexivity.
Qed.

Lemma X4_average_is_a_running_mean_witness :
  let w := Scenario.world [] in
  exists c', lookup "cfg1" (snd (WebhookService.updateWebhookStats "cfg1" true 40 w)) = Some c' /\
    averageResponseTime (stats c') = (2 * (0 * 0 + 40) + (0 + 1)) / (2 * (0 + 1)) /\
    Z.min 0 40 <= averageResponseTime (stats c') <= Z.max 0 40 /\
    (0 = 0 -> averageResponseTime (stats c') = 40) /\
    successCount (stats c') = 0 + 1 /\
    lastTriggered c' = Some (clock w).
Proof.
  intros w.
  apply (X4_average_is_a_running_mean "cfg1" 40 w Scenario.tenant); vm_compute; congruence.
Defined.

(** X5: a failure, and a success whose response time is 0 ms, are counted
    and stamp [lastTriggered], but leave the stored average as it is. *)
Theorem X5_average_untouched_without_positive_time
    (id : string) (ok : bool) (rt : Z) (w : World) (c : WebhookConfig) :
  mongoUp w = true ->
  lookup id w = Some c ->
  ok = false \/ rt <= 0 ->
  exists c', lookup id (snd (WebhookService.updateWebhookStats id ok rt w)) = Some c' /\
    averageResponseTime (stats c') = averageResponseTime (stats c) /\
    totalSent (stats c') = totalSent (stats c) + 1 /\
    successCount (stats c') = successCount (stats c) + (if ok then 1 else 0) /\
    failureCount (stats c') = failureCount (stats c) + (if ok then 0 else 1) /\
    lastTriggered c' = Some (clock w).
Proof.
  intros Hm Hc Hor. rewrite (updateWebhookStats_present id ok rt w c Hm Hc).
  assert (Hguard : ok && (0 <? rt) = false).
  { destruct Hor as [-> | Hrt]; [reflexivity |].
    apply andb_false_iff. right. apply Z.ltb_ge. exact Hrt. }
  rewrite Hguard. eexists. split; [reflexivity |]. destruct ok; cbn; repeat split; lia.
Qed.

Lemma X5_average_untouched_without_positive_time_witness :
  let w := Scenario.world [] in
  exists c', lookup "cfg1" (snd (WebhookService.updateWebhookStats "cfg1" true 0 w)) = Some c' /\
    averageResponseTime (stats c') = 0 /\
    totalSent (stats c') = 0 + 1 /\
    successCount (stats c') = 0 + 1 /\
    failureCount (stats c') = 0 + 0 /\
    lastTriggered c' = Some (clock w).
Proof.
  intros w.
  apply (X5_average_untouched_without_positive_time "cfg1" true 0 w Scenario.tenant).
  - reflexivity.
  - vm_compute. reflexivity.
  - right. lia.
Defined.

(** X6: the worker keeps the counters consistent: if [totalSent] is the
    sum of [successCount] and [failureCount] before a job is processed, it
    is so afterwards, however many times the job was run. *)
Theorem X6_worker_keeps_totalSent_consistent
    (meanwhile : nat -> World -> World) (fuel : nat) (job : Job) (w : World)
    (c : WebhookConfig) :
  (forall n w, mongoUp (meanwhile n w) = mongoUp w /\
               lookup (webhookConfigId (data job)) (meanwhile n w) =
               lookup (webhookConfigId (data job)) w) ->
  mongoUp w = true ->
  lookup (webhookConfigId (data job)) w = Some c ->
  totalSent (stats c) = successCount (stats c) + failureCount (stats c) ->
  exists c', lookup (webhookConfigId (data job))
               (snd (WebhookService.initializeWorker meanwhile fuel job w)) = Some c' /\
    totalSent (stats c') = successCount (stats c') + failureCount (stats c') /\
    totalSent (stats c) <= totalSent (stats c').
Proof.
  intros Hk Hm Hc Hinv.
  destruct (worker_stats _ meanwhile Hk fuel job w c eq_refl Hm Hc) as (_ & c' & Hl & H1 & H2 & H3).
  exists c'. split; [exact Hl |]. split; lia.
Qed.

Lemma X6_worker_keeps_totalSent_consistent_witness :
  exists c', lookup "cfg1"
               (snd (WebhookService.initializeWorker Scenario.quiet 10
                       (Scenario.job Scenario.refused_twice)
                       (Scenario.waiting Scenario.refused_twice))) = Some c' /\
    totalSent (stats c') = successCount (stats c') + failureCount (stats c') /\
    0 <= totalSent (stats c').
Proof.
  apply (X6_worker_keeps_totalSent_consistent Scenario.quiet 10
           (Scenario.job Scenario.refused_twice) (Scenario.waiting Scenario.refused_twice)
           Scenario.tenant).
  - intros n w. split; reflexivity.
  - reflexivity.
  - vm_compute. reflexivity.
  - reflexivity.
Defined.

(** ** The processor at a configuration that cannot be delivered to *)

Lemma processor_missing job w :
  lookup (webhookConfigId (data job)) w = None ->
  let out := WebhookService.processor job w in
  (exists e, fst out = Throw e) /\
  requests (snd out) = requests w /\
  configs (snd out) = configs w.
Proof.
  intros Hnone. cbv zeta.
  pose proof (updateWebhookStats_contained (webhookConfigId (data job)) false 0 w)
    as (Hok & Hreq & _ & _ & Hcfg).
  unfold WebhookService.processor, try_catch, bind, ret, throw. rewrite findById_eq.
  destruct (mongoUp w); cbn; rewrite ?Hnone; cbn;
    destruct (WebhookService.updateWebhookStats (webhookConfigId (data job)) false 0 w)
      as [[u|e] w2]; cbn in *; try discriminate;
    (split; [eauto |]); (split; [exact Hreq | apply Hcfg; auto]).
Qed.

(** X7: when the stored configuration is inactive the processor makes
    no request and fails the run with ['Webhook configuration not found or
    inactive'], yet the failure is written to the statistics: [totalSent]
    and [failureCount] grow by one for a delivery that was never tried. *)
Theorem X7_inactive_configuration_is_counted_but_not_called
    (job : Job) (w : World) (c : WebhookConfig) :
  mongoUp w = true ->
  lookup (webhookConfigId (data job)) w = Some c ->
  isActive c = false ->
  let out := WebhookService.processor job w in
  fst out = Throw "Webhook configuration not found or inactive" /\
  requests (snd out) = requests w /\
  exists c', lookup (webhookConfigId (data job)) (snd out) = Some c' /\
    totalSent (stats c') = totalSent (stats c) + 1 /\
    failureCount (stats c') = failureCount (stats c) + 1 /\
    successCount (stats c') = successCount (stats c) /\
    isActive c' = false.
Proof.
  intros Hm Hc Hina. cbv zeta.
  pose proof (updateWebhookStats_contained (webhookConfigId (data job)) false 0 w)
    as (Hok & Hreq & _).
  pose proof (updateWebhookStats_present (webhookConfigId (data job)) false 0 w c Hm Hc) as Hl.
  unfold WebhookService.processor, try_catch, bind, ret, throw. rewrite findById_eq, Hm, Hc.
  cbn. rewrite Hina. cbn.
  destruct (WebhookService.updateWebhookStats (webhookConfigId (data job)) false 0 w)
    as [[u|e] w2]; cbn in *; [|discriminate].
  split; [reflexivity |]. split; [exact Hreq |].
  eexists. split; [exact Hl |]. cbn. rewrite Hina. repeat split; lia.
Qed.

Lemma X7_inactive_configuration_is_counted_but_not_called_witness :
  let c := set_stats Scenario.tenant default_stats None in
  let asleep := {| _id := _id c; organization := organization c; url := url c;
                   secret := secret c; isActive := false; events := events c;
                   retryConfig := retryConfig c; headers := headers c;
                   lastTriggered := None; stats := default_stats |} in
  let w := Scenario.world_of asleep [Scenario.http 200 "OK" 5] in
  let out := WebhookService.processor (Scenario.job []) w in
  fst out = Throw "Webhook configuration not found or inactive" /\
  requests (snd out) = requests w /\
  exists c', lookup "cfg1" (snd out) = Some c' /\
    totalSent (stats c') = 0 + 1 /\
    failureCount (stats c') = 0 + 1 /\
    successCount (stats c') = 0 /\
    isActive c' = false.
Proof.
  intros c asleep w.
  apply (X7_inactive_configuration_is_counted_but_not_called (Scenario.job []) w asleep);
    reflexivity.
Defined.

Lemma worker_silent (id : string) (meanwhile : nat -> World -> World) :
  (forall n w, requests (meanwhile n w) = requests w) ->
  (forall n w, lookup id w = None -> lookup id (meanwhile n w) = None) ->
  forall (fuel : nat) (job : Job) (w : World),
    webhookConfigId (data job) = id ->
    lookup id w = None ->
    let out := WebhookService.initializeWorker meanwhile fuel job w in
    requests (snd out) = requests w /\
    lookup id (snd out) = None /\
    delivered (BullMQ.outcome (fst out)) = false.
Proof.
  intros Hreq Hkeep. unfold WebhookService.initializeWorker.
  induction fuel as [|fuel IH]; intros job w Hid Hnone; cbn [BullMQ.work].
  - cbn. auto.
  - rewrite <- Hid in Hnone.
    destruct (processor_missing job w Hnone) as ([e He] & Hr & Hc).
    destruct (WebhookService.processor job w) as [[r|e'] w1]; cbn in He, Hr, Hc; [discriminate |].
    assert (Hnone1 : lookup id w1 = None) by (unfold lookup in *; rewrite Hc, <- Hid; exact Hnone).
    destruct (negb _).
    + match goal with
      | |- context [BullMQ.work _ _ _ _ fuel ?j (meanwhile ?n ?w')] =>
          specialize (IH j (meanwhile n w') Hid (Hkeep n w' Hnone1));
          pose proof (Hreq n w') as Hmr
      end.
      destruct (BullMQ.work _ _ _ _ fuel _ _) as [rep w4]. cbn in *.
      destruct IH as (I1 & I2 & I3). rewrite I1, Hmr. cbn. auto.
    + cbn. auto.
Qed.

(** X8: once its configuration has been deleted, a queued job is never
    delivered: it makes no request at any of its runs, nothing is written
    for it, and it still uses up every one of its [attempts] before it
    lands in the failed set. *)
Theorem X8_job_without_configuration_fails_silently
    (meanwhile : nat -> World -> World) (fuel : nat) (job : Job) (w : World) (N : nat) :
  (forall n w, requests (meanwhile n w) = requests w) ->
  (forall n w, lookup (webhookConfigId (data job)) w = None ->
               lookup (webhookConfigId (data job)) (meanwhile n w) = None) ->
  lookup (webhookConfigId (data job)) w = None ->
  (attempts (opts job) == inject_Z (Z.of_nat N))%Q ->
  (attemptsMade job < N)%nat ->
  (N - attemptsMade job <= fuel)%nat ->
  let out := WebhookService.initializeWorker meanwhile fuel job w in
  requests (snd out) = requests w /\
  lookup (webhookConfigId (data job)) (snd out) = None /\
  (exists e, BullMQ.outcome (fst out) = BullMQ.Failed e) /\
  (BullMQ.tries (fst out) + attemptsMade job = N)%nat.
Proof.
  intros Hreq Hkeep Hnone Ha Hm Hf. cbv zeta.
  destruct (worker_silent _ meanwhile Hreq Hkeep fuel job w eq_refl Hnone) as (H1 & H2 & H3).
  pose proof (work_bounded WebhookService.processor WebhookService.on_completed
                WebhookService.on_failed meanwhile N fuel job w Ha Hm) as [_ Hb].
  destruct (Hb Hf) as (Hact & _ & _ & Hfail).
  unfold WebhookService.initializeWorker in *.
  destruct (BullMQ.outcome _) as [r | e |] eqn:Ho; cbn in H3; try discriminate;
    [|now destruct Hact].
  repeat split; eauto.
Qed.

Lemma X8_job_without_configuration_fails_silently_witness :
  let job := Scenario.job [] in
  let w := set_configs [] (Scenario.waiting [Scenario.http 200 "OK" 5]) in
  let out := WebhookService.initializeWorker Scenario.quiet 5 job w in
  requests (snd out) = requests w /\
  lookup "cfg1" (snd out) = None /\
  (exists e, BullMQ.outcome (fst out) = BullMQ.Failed e) /\
  (BullMQ.tries (fst out) + 0 = 3)%nat.
Proof.
  intros job w.
  apply (X8_job_without_configuration_fails_silently Scenario.quiet 5 job w 3).
  - reflexivity.
  - intros n w0 H. exact H.
  - reflexivity.
  - vm_compute. reflexivity.
  - vm_compute. lia.
  - vm_compute. lia.
Defined.

(** ** The configuration endpoint, further *)

Section Upsert.
Variable org : string.
Variable f : WebhookConfig -> WebhookConfig.
Variable fresh : WebhookConfig.
Hypothesis f_org : forall c, organization (f c) = organization c.
Hypothesis fresh_org : organization fresh = org.

Lemma upsert_existing cs old :
  List.find (Mongo.for_org org) cs = Some old ->
  snd (ConfigRoute.upsert org f fresh cs) = f old /\
  length (fst (ConfigRoute.upsert org f fresh cs)) = length cs.
Proof.
  induction cs as [|c cs IH]; cbn; [discriminate |].
  destruct (Mongo.for_org org c) eqn:E; cbn.
  - intros H. injection H as <-. auto.
  - intros H. destruct (IH H) as [I1 I2].
    destruct (ConfigRoute.upsert org f fresh cs) as [rest doc]. cbn in *. auto.
Qed.

Lemma upsert_new cs :
  List.find (Mongo.for_org org) cs = None ->
  ConfigRoute.upsert org f fresh cs = (cs ++ [f fresh], f fresh).
Proof.
  induction cs as [|c cs IH]; cbn; [reflexivity |].
  destruct (Mongo.for_org org c) eqn:E; [discriminate |].
  intros H. now rewrite (IH H).
Qed.

Lemma upsert_other cs org' :
  org' <> org ->
  List.find (Mongo.for_org org') (fst (ConfigRoute.upsert org f fresh cs)) =
  List.find (Mongo.for_org org') cs.
Proof.
  intros Hne. induction cs as [|c cs IH]; cbn.
  - unfold Mongo.for_org. rewrite f_org, fresh_org.
    destruct (String.eqb_spec org org'); [congruence | reflexivity].
  - destruct (Mongo.for_org org c) eqn:E; cbn.
    + unfold Mongo.for_org in *. rewrite f_org. apply String.eqb_eq in E.
      destruct (String.eqb_spec (organization c) org'); [congruence | reflexivity].
    + destruct (ConfigRoute.upsert org f fresh cs) as [rest doc]. cbn in *.
      destruct (Mongo.for_org org' c); [reflexivity | exact IH].
Qed.

Lemma upsert_orgs cs :
  organization <$> fst (ConfigRoute.upsert org f fresh cs) =
  (organization <$> cs) ++
  match List.find (Mongo.for_org org) cs with Some _ => [] | None => [org] end.
Proof.
  induction cs as [|c cs IH]; cbn.
  - now rewrite f_org, fresh_org.
  - destruct (Mongo.for_org org c) eqn:E; cbn.
    + now rewrite f_org, app_nil_r.
    + destruct (ConfigRoute.upsert org f fresh cs) as [rest doc]. cbn in *. now rewrite IH.
Qed.

Lemma find_org_none cs :
  List.find (Mongo.for_org org) cs = None -> org ∉ organization <$> cs.
Proof.
  induction cs as [|c cs IH]; cbn; [intros _; apply not_elem_of_nil |].
  destruct (Mongo.for_org org c) eqn:E; [discriminate |].
  intros H. apply not_elem_of_cons. split; [|now apply IH].
  unfold Mongo.for_org in E. apply String.eqb_neq in E. congruence.
Qed.

Hypothesis f_idem : forall c, f (f c) = f c.


End Upsert.

Lemma cast_fields Number_ cd ev rc :
  ConfigRoute.cast Number_ cd = Some (ev, rc) ->
  ConfigRoute.castBoolean (ConfigRoute.cd_cardExtracted cd) = Some (cardExtracted ev) /\
  ConfigRoute.castBoolean (ConfigRoute.cd_userAdded cd) = Some (userAdded ev) /\
  ConfigRoute.castBoolean (ConfigRoute.cd_configChanged cd) = Some (configChanged ev) /\
  ConfigRoute.castNumber Number_ (ConfigRoute.cd_maxRetries cd) = Some (maxRetries rc) /\
  ConfigRoute.castNumber Number_ (ConfigRoute.cd_retryDelay cd) = Some (retryDelay rc) /\
  ConfigRoute.castNumber Number_ (ConfigRoute.cd_backoffMultiplier cd)
    = Some (backoffMultiplier rc).
Proof.
  unfold ConfigRoute.cast. intros H.
  repeat match type of H with
         | context [mbind _ ?o] => destruct o; cbn in H; [|discriminate]
         end.
  injection H as <- <-. cbn. auto 10.
Qed.

(** What [PUT /webhook] can do: it always answers; a 200 means that the
    body was valid, MongoDB reachable and every value castable, and that
    the collection is the upsert of the overwritten document; any other
    answer leaves the collection alone. *)
Lemma put_webhook_cases isURL Number_ org body w :
  let out := ConfigRoute.put_webhook isURL Number_ org body w in
  (exists ev rc,
     ConfigRoute.valid isURL body = true /\ mongoUp w = true /\
     ConfigRoute.cast Number_ (ConfigRoute.configData body) = Some (ev, rc) /\
     let u := default "" (ConfigRoute.b_url body) in
     let s := default "" (ConfigRoute.b_secret body) in
     let hs := default [] (ConfigRoute.b_headers body) in
     let fresh := {| _id := "oid" +:+ pretty (nextId w); organization := org; url := u;
                     secret := s; isActive := true; events := ev; retryConfig := rc;
                     headers := hs; lastTriggered := None; stats := default_stats |} in
     let up := ConfigRoute.upsert org (ConfigRoute.overwrite u s ev rc hs) fresh (configs w) in
     fst out = Ok (ConfigRoute.Json200 "Webhook configuration saved successfully" (snd up)) /\
     snd out = set_next_id (S (nextId w)) (set_configs (fst up) w)) \/
  ((exists resp, fst out = Ok resp /\
                 forall m d, resp <> ConfigRoute.Json200 m d) /\
   configs (snd out) = configs w /\ requests (snd out) = requests w /\
   queue (snd out) = queue w).
Proof.
  cbv zeta. unfold ConfigRoute.put_webhook.
  destruct (ConfigRoute.valid isURL body) eqn:Hv.
  2:{ right. cbn. split; [eexists; split; [reflexivity | discriminate] | auto]. }
  unfold try_catch, bind, ret, console_error, ConfigRoute.findOneAndUpdate.
  destruct (mongoUp w) eqn:Hm.
  2:{ right. cbn. split; [eexists; split; [reflexivity | discriminate] | auto]. }
  destruct (ConfigRoute.cast Number_ (ConfigRoute.configData body)) as [[ev rc]|] eqn:Hc.
  2:{ right. cbn. split; [eexists; split; [reflexivity | discriminate] | auto]. }
  left. exists ev, rc. repeat split.
  all: destruct (ConfigRoute.upsert _ _ _ _) as [cs doc]; reflexivity.
Qed.

Lemma put_webhook_200 isURL Number_ org body w message saved w' :
  ConfigRoute.put_webhook isURL Number_ org body w
    = (Ok (ConfigRoute.Json200 message saved), w') ->
  exists ev rc,
    ConfigRoute.valid isURL body = true /\ mongoUp w = true /\
    ConfigRoute.cast Number_ (ConfigRoute.configData body) = Some (ev, rc) /\
    let u := default "" (ConfigRoute.b_url body) in
    let s := default "" (ConfigRoute.b_secret body) in
    let hs := default [] (ConfigRoute.b_headers body) in
    let fresh := {| _id := "oid" +:+ pretty (nextId w); organization := org; url := u;
                    secret := s; isActive := true; events := ev; retryConfig := rc;
                    headers := hs; lastTriggered := None; stats := default_stats |} in
    let up := ConfigRoute.upsert org (ConfigRoute.overwrite u s ev rc hs) fresh (configs w) in
    saved = snd up /\ w' = set_next_id (S (nextId w)) (set_configs (fst up) w).
Proof.
  intros H.
  destruct (put_webhook_cases isURL Number_ org body w)
    as [(ev & rc & Hv & Hm & Hc & Hf & Hs) | ((resp & Hr & Hne) & _)]; rewrite H in *; cbn in *.
  - exists ev, rc. injection Hf as ->. auto.
  - injection Hr as <-. now destruct (Hne message saved).
Qed.



(** X10: saving the configuration of a tenant that already has one keeps
    the document's identity and history: [_id], [stats] and
    [lastTriggered] are those of the old document, the document is
    (re)activated, and no document is added.  For a tenant without one, a
    document with zeroed statistics is appended. *)
Theorem X10_put_webhook_keeps_identity_and_statistics
    (isURL : string -> bool) (Number_ : string -> option Q)
    (org : string) (body : ConfigRoute.Body) (w w' : World) (message : string)
    (saved : WebhookConfig) :
  ConfigRoute.put_webhook isURL Number_ org body w
    = (Ok (ConfigRoute.Json200 message saved), w') ->
  (forall old, List.find (Mongo.for_org org) (configs w) = Some old ->
     _id saved = _id old /\ stats saved = stats old /\
     lastTriggered saved = lastTriggered old /\ isActive saved = true /\
     length (configs w') = length (configs w)) /\
  (List.find (Mongo.for_org org) (configs w) = None ->
     stats saved = default_stats /\ lastTriggered saved = None /\
     isActive saved = true /\ configs w' = configs w ++ [saved]).
Proof.
  intros H. destruct (put_webhook_200 _ _ _ _ _ _ _ _ H) as (ev & rc & _ & _ & _ & Hs & Hw).
  cbv zeta in *. split.
  - intros old Hold.
    match type of Hs with
    | _ = snd (ConfigRoute.upsert org ?f ?fresh ?cs) =>
        destruct (upsert_existing org f fresh cs old Hold) as [Hdoc Hlen]
    end.
    rewrite Hs, Hw, Hdoc. cbn. rewrite Hlen. auto.
  - intros Hnone.
    match type of Hs with
    | _ = snd (ConfigRoute.upsert org ?f ?fresh ?cs) =>
        pose proof (upsert_new org f fresh cs Hnone) as Hup
    end.
    rewrite Hs, Hw, Hup. cbn. auto.
Qed.

Lemma X10_put_webhook_keeps_identity_and_statistics_witness :
  let used := set_stats Scenario.tenant
                {| totalSent := 7; successCount := 5; failureCount := 2;
                   averageResponseTime := 31 |} (Some 1699999999000) in
  let w := Scenario.world_of used [] in
  let out := ConfigRoute.put_webhook (fun _ => true) (fun _ => None) "org1"
               Scenario.new_secret w in
  let saved := match fst out with
               | Ok (ConfigRoute.Json200 _ doc) => doc
               | _ => Scenario.tenant
               end in
  (forall old, List.find (Mongo.for_org "org1") (configs w) = Some old ->
     _id saved = _id old /\ stats saved = stats old /\
     lastTriggered saved = lastTriggered old /\ isActive saved = true /\
     length (configs (snd out)) = length (configs w)) /\
  (List.find (Mongo.for_org "org1") (configs w) = None ->
     stats saved = default_stats /\ lastTriggered saved = None /\
     isActive saved = true /\ configs (snd out) = configs w ++ [saved]).
Proof.
  intros used w out saved.
  apply (X10_put_webhook_keeps_identity_and_statistics (fun _ => true) (fun _ => None) "org1"
           Scenario.new_secret w (snd out) "Webhook configuration saved successfully" saved).
  vm_compute. reflexivity.
Defined.

(** X11: [PUT /webhook] of one tenant never touches the document of
    another tenant, and it keeps the organizations of the collection
    distinct. *)
Theorem X11_put_webhook_leaves_other_tenants_alone
    (isURL : string -> bool) (Number_ : string -> option Q)
    (org : string) (body : ConfigRoute.Body) (w : World) :
  let w' := snd (ConfigRoute.put_webhook isURL Number_ org body w) in
  (forall org', org' <> org ->
     List.find (Mongo.for_org org') (configs w') = List.find (Mongo.for_org org') (configs w)) /\
  (NoDup (organization <$> configs w) -> NoDup (organization <$> configs w')).
Proof.
  cbv zeta.
  destruct (put_webhook_cases isURL Number_ org body w)
    as [(ev & rc & _ & _ & _ & _ & ->) | (_ & -> & _)]; [|auto].
  cbn. split.
  - intros org' Hne. now apply upsert_other.
  - intros Hnd. rewrite upsert_orgs by reflexivity.
    destruct (List.find (Mongo.for_org org) (configs w)) eqn:Hf; [now rewrite app_nil_r |].
    apply NoDup_app. split; [exact Hnd |]. split; [|apply NoDup_singleton].
    intros x Hx Hin. apply list_elem_of_singleton in Hin. subst x.
    now apply (find_org_none org (configs w) Hf).
Qed.

Lemma or_else_missing d : ConfigRoute.or_else None d = d.
Proof. reflexivity. Qed.

(** X12: the keys a body leaves out are stored with their defaults:
    [maxRetries] 3, [retryDelay] 1000, [backoffMultiplier] 2,
    [cardExtracted] true, [userAdded] and [configChanged] false; this holds
    key by key, also when [retryConfig] or [events] is given with other
    keys only. *)
Theorem X12_put_webhook_defaults
    (isURL : string -> bool) (Number_ : string -> option Q)
    (org : string) (body : ConfigRoute.Body) (w w' : World) (message : string)
    (saved : WebhookConfig) :
  ConfigRoute.put_webhook isURL Number_ org body w
    = (Ok (ConfigRoute.Json200 message saved), w') ->
  let rc := default ∅ (ConfigRoute.b_retryConfig body) in
  let ev := default {[ "cardExtracted" := ConfigRoute.JsBool true ]} (ConfigRoute.b_events body) in
  (rc !! "maxRetries" = None -> maxRetries (retryConfig saved) = 3%Q) /\
  (rc !! "retryDelay" = None -> retryDelay (retryConfig saved) = 1000%Q) /\
  (rc !! "backoffMultiplier" = None -> backoffMultiplier (retryConfig saved) = 2%Q) /\
  (ev !! "cardExtracted" = None -> cardExtracted (events saved) = true) /\
  (ev !! "userAdded" = None -> userAdded (events saved) = false) /\
  (ev !! "configChanged" = None -> configChanged (events saved) = false).
Proof.
  intros H rc ev.
  destruct (put_webhook_200 _ _ _ _ _ _ _ _ H) as (ev' & rc' & _ & _ & Hc & Hs & _).
  cbv zeta in Hs.
  match type of Hs with
  | _ = snd (ConfigRoute.upsert org ?f ?fresh ?cs) =>
      destruct (upsert_stored org f fresh cs) as [_ [c Hdoc]]; [reflexivity | reflexivity |]
  end.
  rewrite Hs, Hdoc. cbn.
  destruct (cast_fields _ _ _ _ Hc) as (C1 & C2 & C3 & C4 & C5 & C6).
  unfold ConfigRoute.configData in *. cbn in *. fold rc ev in C1, C2, C3, C4, C5, C6.
  repeat split; intros Hnone; rewrite Hnone in *; cbn in *; congruence.
Qed.

Lemma X12_put_webhook_defaults_witness :
  let out := ConfigRoute.put_webhook (fun _ => true) (fun _ => None) "org9" Scenario.new_secret
               (Scenario.world []) in
  let saved := match fst out with
               | Ok (ConfigRoute.Json200 _ doc) => doc
               | _ => Scenario.tenant
               end in
  let rc := default ∅ (ConfigRoute.b_retryConfig Scenario.new_secret) in
  let ev := default {[ "cardExtracted" := ConfigRoute.JsBool true ]}
              (ConfigRoute.b_events Scenario.new_secret) in
  (rc !! "maxRetries" = None -> maxRetries (retryConfig saved) = 3%Q) /\
  (rc !! "retryDelay" = None -> retryDelay (retryConfig saved) = 1000%Q) /\
  (rc !! "backoffMultiplier" = None -> backoffMultiplier (retryConfig saved) = 2%Q) /\
  (ev !! "cardExtracted" = None -> cardExtracted (events saved) = true) /\
  (ev !! "userAdded" = None -> userAdded (events saved) = false) /\
  (ev !! "configChanged" = None -> configChanged (events saved) = false).
Proof.
  intros out saved.
  apply (X12_put_webhook_defaults (fun _ => true) (fun _ => None) "org9" Scenario.new_secret
           (Scenario.world []) (snd out) "Webhook configuration saved successfully" saved).
  vm_compute. reflexivity.
Defined.

Lemma upsert_active org f fresh cs :
  organization fresh = org ->
  (forall c, organization (f c) = organization c) ->
  (forall c, isActive (f c) = true) ->
  List.find (Mongo.active_for org) (fst (ConfigRoute.upsert org f fresh cs))
    = Some (snd (ConfigRoute.upsert org f fresh cs)).
Proof.
  intros Hfresh Hf Ha. induction cs as [|c cs IH]; cbn.
  - unfold Mongo.active_for. now rewrite Hf, Hfresh, String.eqb_refl, Ha.
  - destruct (Mongo.for_org org c) eqn:E; cbn.
    + unfold Mongo.active_for, Mongo.for_org in *. now rewrite Hf, E, Ha.
    + destruct (ConfigRoute.upsert org f fresh cs) as [rest doc]. cbn in *.
      unfold Mongo.active_for, Mongo.for_org in *. rewrite E. exact IH.
Qed.

(** X13: a configuration that was just saved is the one the dispatcher
    uses: after a 200, an event the saved document enables is queued (when
    Redis is reachable) as a job for the saved document's [_id], with
    [maxRetries + 1] attempts of the saved policy and attempt number 1. *)
Theorem X13_saved_configuration_is_dispatched_to
    (isURL : string -> bool) (Number_ : string -> option Q)
    (org : string) (body : ConfigRoute.Body) (w w' : World) (message : string)
    (saved : WebhookConfig) (eventType : string) (data : JSON.value) :
  ConfigRoute.put_webhook isURL Number_ org body w
    = (Ok (ConfigRoute.Json200 message saved), w') ->
  events_get (events saved) eventType = true ->
  redisUp w' = true ->
  List.find (Mongo.active_for org) (configs w') = Some saved /\
  WebhookService.sendWebhook {| WebhookService.redisEnabled := true |} org eventType data w'
  = (Ok (Queued "Webhook queued for delivery"),
     set_queue (queue w' ++ [job_for saved eventType org data w']) w').
Proof.
  intros H Hev Hredis.
  destruct (put_webhook_200 _ _ _ _ _ _ _ _ H) as (ev & rc & _ & Hm & _ & Hs & Hw).
  cbv zeta in *.
  assert (Hfind : List.find (Mongo.active_for org) (configs w') = Some saved).
  { rewrite Hw, Hs. cbn. apply upsert_active; reflexivity. }
  split; [exact Hfind |].
  destruct (sendWebhook_queued_cases org eventType data w')
    as [[Hdown _] | [(_ & _ & Hsk) | (c & _ & Hc & _ & [[_ Hq] | (Hr & _)])]].
  - rewrite Hw in Hdown. cbn in Hdown. congruence.
  - rewrite Hfind in Hsk. congruence.
  - rewrite Hfind in Hc. injection Hc as <-. exact Hq.
  - congruence.
Qed.

Lemma X13_saved_configuration_is_dispatched_to_witness :
  let out := ConfigRoute.put_webhook (fun _ => true) (fun _ => None) "org9" Scenario.zero_retries
               (Scenario.world []) in
  let saved := match fst out with
               | Ok (ConfigRoute.Json200 _ doc) => doc
               | _ => Scenario.tenant
               end in
  List.find (Mongo.active_for "org9") (configs (snd out)) = Some saved /\
  WebhookService.sendWebhook {| WebhookService.redisEnabled := true |} "org9" "cardExtracted"
    JSON.Null (snd out)
  = (Ok (Queued "Webhook queued for delivery"),
     set_queue (queue (snd out) ++ [job_for saved "cardExtracted" "org9" JSON.Null (snd out)])
       (snd out)).
Proof.
  intros out saved.
  apply (X13_saved_configuration_is_dispatched_to (fun _ => true) (fun _ => None) "org9"
           Scenario.zero_retries (Scenario.world []) (snd out)
           "Webhook configuration saved successfully" saved "cardExtracted" JSON.Null);
    vm_compute; reflexivity.
Defined.

Lemma overwrite_idem u s ev rc hs c :
  ConfigRoute.overwrite u s ev rc hs (ConfigRoute.overwrite u s ev rc hs c)
  = ConfigRoute.overwrite u s ev rc hs c.
Proof. reflexivity. Qed.



(** ** Reading and deleting the configuration *)

Lemma find_org_absent org (cs : list WebhookConfig) :
  org ∉ organization <$> cs -> List.find (Mongo.for_org org) cs = None.
Proof.
  induction cs as [|c cs IH]; cbn; [reflexivity |].
  intros Hn. apply not_elem_of_cons in Hn as [Hne Hn].
  unfold Mongo.for_org at 1. destruct (String.eqb_spec (organization c) org); [congruence |].
  now apply IH.
Qed.

Lemma find_active_none org (cs : list WebhookConfig) :
  List.find (Mongo.for_org org) cs = None -> List.find (Mongo.active_for org) cs = None.
Proof.
  induction cs as [|c cs IH]; cbn; [reflexivity |].
  unfold Mongo.for_org, Mongo.active_for in *.
  destruct (String.eqb (organization c) org); cbn; [discriminate | exact IH].
Qed.

Lemma remove_for_facts org (cs : list WebhookConfig) :
  (List.find (Mongo.for_org org) cs = None -> WebhookRoutes.remove_for org cs = cs) /\
  (forall old, List.find (Mongo.for_org org) cs = Some old ->
     S (length (WebhookRoutes.remove_for org cs)) = length cs) /\
  (forall org', org' <> org ->
     List.find (Mongo.for_org org') (WebhookRoutes.remove_for org cs)
     = List.find (Mongo.for_org org') cs) /\
  (NoDup (organization <$> cs) ->
     List.find (Mongo.for_org org) (WebhookRoutes.remove_for org cs) = None /\
     NoDup (organization <$> WebhookRoutes.remove_for org cs)).
Proof.
  induction cs as [|c cs (I1 & I2 & I3 & I4)]; cbn.
  { repeat split; auto; try discriminate; try apply NoDup_nil_2. }
  destruct (Mongo.for_org org c) eqn:E; cbn.
  - split; [discriminate |]. split; [auto |]. split.
    + intros org' Hne. unfold Mongo.for_org in *. apply String.eqb_eq in E.
      destruct (String.eqb_spec (organization c) org'); [congruence | reflexivity].
    + intros Hnd. apply NoDup_cons in Hnd as [Hnotin Hnd]. split; [|exact Hnd].
      apply find_org_absent. unfold Mongo.for_org in E. apply String.eqb_eq in E. congruence.
  - split; [intros H; now rewrite I1 |]. split; [intros old H; now rewrite (I2 old H) |]. split.
    + intros org' Hne. destruct (Mongo.for_org org' c); [reflexivity | now apply I3].
    + intros Hnd. apply NoDup_cons in Hnd as [Hnotin Hnd]. destruct (I4 Hnd) as [I5 I6].
      rewrite E. split; [exact I5 |]. apply NoDup_cons. split; [|exact I6].
      intros Hin. apply Hnotin. apply list_elem_of_fmap in Hin as (c' & Hc' & Hin).
      apply list_elem_of_fmap. exists c'. split; [exact Hc' |].
      clear - Hin. induction cs as [|d cs IH]; cbn in *; [exact Hin |].
      destruct (Mongo.for_org org d); [now apply list_elem_of_further |].
      apply elem_of_cons in Hin as [-> | Hin]; [apply list_elem_of_here |].
      apply list_elem_of_further. now apply IH.
Qed.

Lemma sendWebhook_skips_without_config self org ev data w :
  mongoUp w = true ->
  List.find (Mongo.active_for org) (configs w) = None ->
  WebhookService.sendWebhook self org ev data w = (Ok Skipped, w).
Proof.
  intros Hm Hf.
  unfold WebhookService.sendWebhook, try_catch, bind, Mongo.findOne, Mongo.query, ret.
  now rewrite Hm, Hf.
Qed.

(** X15: [GET /webhook] after a successful [PUT /webhook] answers the
    document that was saved, without its secret; and the route never
    changes the collection. *)
Theorem X15_get_webhook_returns_what_was_saved
    (isURL : string -> bool) (Number_ : string -> option Q)
    (org : string) (body : ConfigRoute.Body) (w w' : World) (message : string)
    (saved : WebhookConfig) :
  ConfigRoute.put_webhook isURL Number_ org body w
    = (Ok (ConfigRoute.Json200 message saved), w') ->
  WebhookRoutes.get_webhook org w'
    = (Ok (WebhookRoutes.Found (Some (WebhookRoutes.toJSON saved)) None), w') /\
  WebhookRoutes.v_url (WebhookRoutes.toJSON saved) = default "" (ConfigRoute.b_url body).
Proof.
  intros H. destruct (put_webhook_200 _ _ _ _ _ _ _ _ H) as (ev & rc & _ & Hm & _ & Hs & Hw).
  cbv zeta in *.
  assert (Hfind : List.find (Mongo.for_org org) (configs w') = Some saved).
  { rewrite Hw, Hs. cbn. apply upsert_stored; reflexivity. }
  split.
  - unfold WebhookRoutes.get_webhook, try_catch, bind, ret, Mongo.findOne, Mongo.query.
    replace (mongoUp w') with true by (rewrite Hw; cbn; congruence).
    now rewrite Hfind.
  - rewrite Hs.
    match goal with
    | |- context [ConfigRoute.upsert org ?f ?fresh ?cs] =>
        destruct (upsert_stored org f fresh cs) as [_ [c ->]]; reflexivity
    end.
Qed.

Lemma X15_get_webhook_returns_what_was_saved_witness :
  let out := ConfigRoute.put_webhook (fun _ => true) (fun _ => None) "org9" Scenario.zero_retries
               (Scenario.world []) in
  let saved := match fst out with
               | Ok (ConfigRoute.Json200 _ doc) => doc
               | _ => Scenario.tenant
               end in
  WebhookRoutes.get_webhook "org9" (snd out)
    = (Ok (WebhookRoutes.Found (Some (WebhookRoutes.toJSON saved)) None), snd out) /\
  WebhookRoutes.v_url (WebhookRoutes.toJSON saved)
    = default "" (ConfigRoute.b_url Scenario.zero_retries).
Proof.
  intros out saved.
  apply (X15_get_webhook_returns_what_was_saved (fun _ => true) (fun _ => None) "org9"
           Scenario.zero_retries (Scenario.world []) (snd out)
           "Webhook configuration saved successfully" saved).
  vm_compute. reflexivity.
Defined.

(** X16: [DELETE /webhook] always answers.  With MongoDB reachable it
    answers 404 and changes nothing when the tenant has no document;
    otherwise it answers 200, removes exactly one document, leaves every
    other tenant's document in place and, the organizations being
    distinct, leaves none for the tenant. *)
Theorem X16_delete_webhook_removes_only_the_tenants_document (org : string) (w : World) :
  mongoUp w = true ->
  let out := WebhookRoutes.delete_webhook org w in
  requests (snd out) = requests w /\
  (List.find (Mongo.for_org org) (configs w) = None ->
     out = (Ok (WebhookRoutes.NotFound "Webhook configuration not found"), w)) /\
  (forall old, List.find (Mongo.for_org org) (configs w) = Some old ->
     fst out = Ok (WebhookRoutes.Deleted "Webhook configuration deleted successfully") /\
     S (length (configs (snd out))) = length (configs w)) /\
  (forall org', org' <> org ->
     List.find (Mongo.for_org org') (configs (snd out))
     = List.find (Mongo.for_org org') (configs w)) /\
  (NoDup (organization <$> configs w) ->
     List.find (Mongo.for_org org) (configs (snd out)) = None /\
     NoDup (organization <$> configs (snd out))).
Proof.
  intros Hm. cbv zeta.
  destruct (remove_for_facts org (configs w)) as (R1 & R2 & R3 & R4).
  unfold WebhookRoutes.delete_webhook, WebhookRoutes.findOneAndDelete, try_catch, bind, ret.
  rewrite Hm.
  destruct (List.find (Mongo.for_org org) (configs w)) as [old|] eqn:Hf; cbn.
  - split; [reflexivity |]. split; [discriminate |]. split; [|split; [exact R3 | exact R4]].
    intros old' _. split; [reflexivity | now apply (R2 old)].
  - split; [reflexivity |]. split; [|split; [discriminate | split; [exact R3 | exact R4]]].
    intros _. rewrite (R1 eq_refl). destruct w; reflexivity.
Qed.

Lemma X16_delete_webhook_removes_only_the_tenants_document_witness :
  let w := Cases.two_tenants [] in
  let out := WebhookRoutes.delete_webhook "org1" w in
  requests (snd out) = requests w /\
  (List.find (Mongo.for_org "org1") (configs w) = None ->
     out = (Ok (WebhookRoutes.NotFound "Webhook configuration not found"), w)) /\
  (forall old, List.find (Mongo.for_org "org1") (configs w) = Some old ->
     fst out = Ok (WebhookRoutes.Deleted "Webhook configuration deleted successfully") /\
     S (length (configs (snd out))) = length (configs w)) /\
  (forall org', org' <> "org1" ->
     List.find (Mongo.for_org org') (configs (snd out))
     = List.find (Mongo.for_org org') (configs w)) /\
  (NoDup (organization <$> configs w) ->
     List.find (Mongo.for_org "org1") (configs (snd out)) = None /\
     NoDup (organization <$> configs (snd out))).
Proof.
  intros w. apply (X16_delete_webhook_removes_only_the_tenants_document "org1" w). reflexivity.
Defined.

(** X17: once a tenant's configuration has been deleted (the
    organizations being distinct), its events are skipped: [sendWebhook]
    resolves with [null], makes no request and queues nothing. *)
Theorem X17_deleted_configuration_is_no_longer_notified
    (self : WebhookService.t) (org eventType : string) (data : JSON.value) (w : World) :
  mongoUp w = true ->
  NoDup (organization <$> configs w) ->
  let w' := snd (WebhookRoutes.delete_webhook org w) in
  WebhookService.sendWebhook self org eventType data w' = (Ok Skipped, w').
Proof.
  intros Hm Hnd. cbv zeta.
  destruct (remove_for_facts org (configs w)) as (_ & _ & _ & R4).
  destruct (R4 Hnd) as [Hnone _].
  apply sendWebhook_skips_without_config.
  - unfold WebhookRoutes.delete_webhook, WebhookRoutes.findOneAndDelete, try_catch, bind, ret.
    rewrite Hm. destruct (List.find _ (configs w)); exact Hm.
  - apply find_active_none.
    unfold WebhookRoutes.delete_webhook, WebhookRoutes.findOneAndDelete, try_catch, bind, ret.
    rewrite Hm. destruct (List.find (Mongo.for_org org) (configs w)); exact Hnone.
Qed.

Lemma X17_deleted_configuration_is_no_longer_notified_witness :
  let w' := snd (WebhookRoutes.delete_webhook "org1" (Cases.two_tenants [])) in
  WebhookService.sendWebhook Scenario.direct "org1" "cardExtracted" JSON.Null w'
  = (Ok Skipped, w').
Proof.
  apply (X17_deleted_configuration_is_no_longer_notified Scenario.direct "org1" "cardExtracted"
           JSON.Null (Cases.two_tenants [])).
  - reflexivity.
  - vm_compute. repeat constructor; intros H; inversion H; subst;
      try discriminate; match goal with H' : _ ∈ [] |- _ => inversion H' | _ => idtac end;
      inversion H2.
Defined.

(** ** The queue operations *)

(** X18: [getQueueStats] never rejects.  It resolves with the sizes of
    the four sets when the service has a queue and Redis is reachable, and
    with [null] otherwise, after one line on the console; it changes
    nothing else. *)
Theorem X18_getQueueStats_never_rejects
    (self : WebhookService.t) (q : BullQueue.t) (w : World) :
  let out := WebhookQueueOps.getQueueStats self q w in
  fst out =
    Ok (if WebhookService.redisEnabled self && redisUp w
        then Some {| WebhookQueueOps.n_waiting := length (BullQueue.waiting q);
                     WebhookQueueOps.n_active := length (BullQueue.active q);
                     WebhookQueueOps.n_completed := length (BullQueue.completed q);
                     WebhookQueueOps.n_failed := length (BullQueue.failed q) |}
        else None) /\
  configs (snd out) = configs w /\ requests (snd out) = requests w /\
  queue (snd out) = queue w /\
  length (console (snd out)) =
    (length (console w) + (if WebhookService.redisEnabled self && redisUp w then 0 else 1))%nat.
Proof.
  cbv zeta.
  unfold WebhookQueueOps.getQueueStats, WebhookQueueOps.on_queue, try_catch, bind, ret,
    console_error.
  destruct (WebhookService.redisEnabled self), (redisUp w) eqn:Hr; cbn;
    rewrite ?Hr; cbn; rewrite ?Hr; cbn; rewrite ?Hr; cbn;
    rewrite ?length_app; cbn; repeat split; first [reflexivity | lia].
Qed.

(** X19: without a queue the two queue routes part ways: the statistics
    route still answers 200, with the stored counters and [queue: null],
    while the retry route answers 500, because [retryFailedWebhooks]
    rethrows the [TypeError] that [getQueueStats] swallows. *)
Theorem X19_queue_routes_without_a_queue
    (self : WebhookService.t) (org : string) (q : BullQueue.t) (w : World) (c : WebhookConfig) :
  WebhookService.redisEnabled self = false ->
  mongoUp w = true ->
  List.find (Mongo.for_org org) (configs w) = Some c ->
  fst (WebhookRoutes.get_webhook_stats self org q w)
    = Ok (WebhookRoutes.StatsOf (stats c) None (lastTriggered c)) /\
  fst (WebhookRoutes.post_webhook_retry self org q w)
    = Ok (WebhookRoutes.ServerError "Failed to retry webhooks"
            "Failed to retry webhooks: Cannot read properties of undefined (reading 'getFailed')",
          q).
Proof.
  intros Hq Hm Hc. split.
  - unfold WebhookRoutes.get_webhook_stats, try_catch, bind, ret, Mongo.findOne, Mongo.query.
    rewrite Hm, Hc.
    unfold WebhookQueueOps.getQueueStats, WebhookQueueOps.on_queue, try_catch, bind, ret,
      console_error.
    now rewrite Hq.
  - unfold WebhookRoutes.post_webhook_retry, WebhookQueueOps.retryFailedWebhooks,
      WebhookQueueOps.on_queue, try_catch, bind, ret, throw, console_error.
    now rewrite Hq.
Qed.

Lemma X19_queue_routes_without_a_queue_witness :
  fst (WebhookRoutes.get_webhook_stats (WebhookQueueOps.constructor None) "org1" Cases.sets
         (Scenario.world []))
    = Ok (WebhookRoutes.StatsOf default_stats None None) /\
  fst (WebhookRoutes.post_webhook_retry (WebhookQueueOps.constructor None) "org1" Cases.sets
         (Scenario.world []))
    = Ok (WebhookRoutes.ServerError "Failed to retry webhooks"
            "Failed to retry webhooks: Cannot read properties of undefined (reading 'getFailed')",
          Cases.sets).
Proof.
  apply (X19_queue_routes_without_a_queue (WebhookQueueOps.constructor None) "org1" Cases.sets
           (Scenario.world []) Scenario.tenant); reflexivity.
Defined.

Lemma remove_first_passes (id : string) (pre rest : list Job) :
  id ∉ jobId <$> pre ->
  BullQueue.remove_first id (pre ++ rest) = pre ++ BullQueue.remove_first id rest.
Proof.
  induction pre as [|j pre IH]; cbn; [reflexivity |].
  intros Hn. apply not_elem_of_cons in Hn as [Hne Hn].
  destruct (String.eqb_spec (jobId j) id); [congruence |]. now rewrite IH.
Qed.

Lemma retry_all_sets (P : Job -> bool) (F : list Job) : forall (pre : list Job) (q : BullQueue.t),
  BullQueue.failed q = pre ++ F ->
  NoDup (jobId <$> (pre ++ F)) ->
  BullQueue.failed (retry_all (List.filter P F) q) = pre ++ List.filter (fun j => negb (P j)) F /\
  BullQueue.waiting (retry_all (List.filter P F) q) = BullQueue.waiting q ++ List.filter P F /\
  BullQueue.active (retry_all (List.filter P F) q) = BullQueue.active q /\
  BullQueue.completed (retry_all (List.filter P F) q) = BullQueue.completed q.
Proof.
  unfold retry_all. induction F as [|j F IH]; intros pre q Hq Hnd; cbn.
  - rewrite !app_nil_r in *. auto.
  - destruct (P j) eqn:Pj; cbn.
    + assert (Hnotin : jobId j ∉ jobId <$> pre).
      { rewrite fmap_app in Hnd. apply NoDup_app in Hnd as (_ & Hdis & _).
        intros Hin. apply (Hdis _ Hin). cbn. apply list_elem_of_here. }
      destruct (IH pre (BullQueue.retry j q)) as (I1 & I2 & I3 & I4).
      * cbn. rewrite Hq, remove_first_passes by exact Hnotin. cbn.
        now rewrite String.eqb_refl.
      * rewrite fmap_app in *. cbn in Hnd. apply NoDup_app in Hnd as (H1 & H2 & H3).
        apply NoDup_cons in H3 as [_ H3]. apply NoDup_app. repeat split; [exact H1 | | exact H3].
        intros x Hx Hin. apply (H2 x Hx). now apply list_elem_of_further.
      * rewrite I1, I2, I3, I4. cbn. rewrite <- app_assoc. auto.
    + destruct (IH (pre ++ [j]) q) as (I1 & I2 & I3 & I4).
      * now rewrite <- app_assoc.
      * now rewrite <- app_assoc.
      * rewrite I1, I2, I3, I4, <- app_assoc. auto.
Qed.

(** X20: with a queue, [retryFailedWebhooks] retries exactly the failed
    jobs whose payload carries the tenant's organization: their number is
    the [retriedCount], they leave the failed set and wait again, and the
    failed jobs of every other tenant stay where they are, in their order. *)
Theorem X20_retryFailedWebhooks_retries_only_the_tenants_jobs
    (self : WebhookService.t) (org : string) (q : BullQueue.t) (w : World) :
  WebhookService.redisEnabled self = true ->
  redisUp w = true ->
  NoDup (jobId <$> BullQueue.failed q) ->
  let mine := List.filter (WebhookQueueOps.of_organization org) (BullQueue.failed q) in
  exists q', WebhookQueueOps.retryFailedWebhooks self org q w = (Ok (length mine, q'), w) /\
    BullQueue.failed q' =
      List.filter (fun j => negb (WebhookQueueOps.of_organization org j)) (BullQueue.failed q) /\
    BullQueue.waiting q' = BullQueue.waiting q ++ mine /\
    BullQueue.active q' = BullQueue.active q /\
    BullQueue.completed q' = BullQueue.completed q.
Proof.
  intros He Hr Hnd mine.
  unfold WebhookQueueOps.retryFailedWebhooks, WebhookQueueOps.on_queue, try_catch, bind, ret.
  rewrite He, Hr. eexists. split; [reflexivity |].
  apply (retry_all_sets (WebhookQueueOps.of_organization org) (BullQueue.failed q) [] q);
    [reflexivity | exact Hnd].
Qed.

Lemma X20_retryFailedWebhooks_retries_only_the_tenants_jobs_witness :
  let w := Scenario.world [] in
  let mine := List.filter (WebhookQueueOps.of_organization "org1") (BullQueue.failed Cases.sets) in
  exists q', WebhookQueueOps.retryFailedWebhooks Scenario.queued "org1" Cases.sets w
             = (Ok (length mine, q'), w) /\
    BullQueue.failed q' =
      List.filter (fun j => negb (WebhookQueueOps.of_organization "org1" j))
        (BullQueue.failed Cases.sets) /\
    BullQueue.waiting q' = BullQueue.waiting Cases.sets ++ mine /\
    BullQueue.active q' = BullQueue.active Cases.sets /\
    BullQueue.completed q' = BullQueue.completed Cases.sets.
Proof.
  intros w.
  apply (X20_retryFailedWebhooks_retries_only_the_tenants_jobs Scenario.queued "org1"
           Cases.sets w); [reflexivity | reflexivity |].
  apply (bool_decide_unpack _). vm_compute. exact I.
Defined.

(** ** The test route *)

(** The data of a test delivery asked through the route: [testData] when
    it is truthy, the route's own message otherwise. *)
Lemma post_webhook_test_unfold (org : string) (testData : option JSON.value) (w : World) :
  exists data,
    data = match testData with
           | Some v => if WebhookRoutes.truthy v then v
                       else JSON.Obj [("message", JSON.Str "Test webhook from admin panel")]
           | None => JSON.Obj [("message", JSON.Str "Test webhook from admin panel")]
           end /\
    WebhookRoutes.post_webhook_test org testData w =
      match WebhookService.testWebhook org (Some data) w with
      | (Ok result, w') =>
          (Ok (WebhookRoutes.Tested "Webhook test completed successfully"
                 (status result) (responseTime result)), w')
      | (Throw error, w') =>
          (Ok (WebhookRoutes.BadRequest "Webhook test failed" error),
           set_console (console w' ++ ["Error testing webhook: " +:+ error]) w')
      end.
Proof.
  eexists. split; [reflexivity |].
  unfold WebhookRoutes.post_webhook_test, try_catch, bind, ret, console_error.
  destruct (WebhookService.testWebhook org _ w) as [[r | e] w']; reflexivity.
Qed.

(** X21: [POST /webhook/test] answers 200 or 400, never 500; it issues at
    most one request and leaves the stored configurations, their
    statistics included, as they were.  Without an active
    configuration of the tenant it issues no request and answers 400 with
    ['Webhook test failed: No active webhook configuration found']. *)
Theorem X21_post_webhook_test_counts_nothing
    (org : string) (testData : option JSON.value) (w : World) :
  let out := WebhookRoutes.post_webhook_test org testData w in
  (exists a, fst out = Ok a /\
     (WebhookRoutes.http_status a = 200 \/ WebhookRoutes.http_status a = 400)) /\
  configs (snd out) = configs w /\
  (length (requests (snd out)) <= S (length (requests w)))%nat /\
  (mongoUp w = true -> List.find (Mongo.active_for org) (configs w) = None ->
   fst out = Ok (WebhookRoutes.BadRequest "Webhook test failed"
                   "Webhook test failed: No active webhook configuration found") /\
   requests (snd out) = requests w).
Proof.
  cbv zeta. destruct (post_webhook_test_unfold org testData w) as (data & _ & ->).
  pose proof (testWebhook_leaves_stats org (Some data) w) as [Hc Hr].
  split; [|split; [|split]].
  - destruct (WebhookService.testWebhook org (Some data) w) as [[r | e] w']; cbn; eauto.
  - destruct (WebhookService.testWebhook org (Some data) w) as [[r | e] w']; cbn in *; exact Hc.
  - destruct (WebhookService.testWebhook org (Some data) w) as [[r | e] w']; cbn in *; exact Hr.
  - intros Hm Hnone.
    unfold WebhookService.testWebhook, try_catch, bind, Mongo.findOne, Mongo.query, ret, throw.
    rewrite Hm, Hnone. cbn. auto.
Qed.

(** X22: with an active configuration, [POST /webhook/test] issues exactly
    one request: the attempt numbered 1 of an event ['test'] of the tenant,
    stamped with the current time, whose data is [testData] when that is
    truthy and the route's ['Test webhook from admin panel'] otherwise.  It
    answers 200 with the status and the response time when the attempt
    resolves, and 400 with the attempt's message behind ['Webhook test
    failed: '] when it rejects. *)
Theorem X22_post_webhook_test_sends_one_test_event
    (org : string) (testData : option JSON.value) (w : World) (c : WebhookConfig) :
  mongoUp w = true ->
  List.find (Mongo.active_for org) (configs w) = Some c ->
  let data := match testData with
              | Some v => if WebhookRoutes.truthy v then v
                          else JSON.Obj [("message", JSON.Str "Test webhook from admin panel")]
              | None => JSON.Obj [("message", JSON.Str "Test webhook from admin panel")]
              end in
  let payload := {| Envelope.event := "test"; Envelope.timestamp := Date.toISOString (clock w);
                    Envelope.organizationId := org; Envelope.data := data |} in
  let out := WebhookRoutes.post_webhook_test org testData w in
  requests (snd out) = requests w ++ [request_for c payload 1 (clock w)] /\
  fst out =
    match fst (WebhookService.deliverWebhook c payload 1 w) with
    | Ok r => Ok (WebhookRoutes.Tested "Webhook test completed successfully"
                    (status r) (responseTime r))
    | Throw e => Ok (WebhookRoutes.BadRequest "Webhook test failed"
                       ("Webhook test failed: " +:+ e))
    end.
Proof.
  intros Hm Hc. cbv zeta.
  destruct (post_webhook_test_unfold org testData w) as (data & -> & ->).
  unfold WebhookService.testWebhook, try_catch, bind, Mongo.findOne, Mongo.query, ret, throw, now.
  rewrite Hm, Hc. unfold WebhookService.envelope. cbn [from_option id].
  match goal with
  | |- context [WebhookService.deliverWebhook c ?p 1 w] =>
      pose proof (deliverWebhook_world c p 1 w) as (_ & _ & _ & Hr);
      destruct (WebhookService.deliverWebhook c p 1 w) as [[r | e] w1]
  end; (split; [exact Hr | reflexivity]).
Qed.

Lemma X22_post_webhook_test_sends_one_test_event_witness :
  let w := Scenario.world [Scenario.http 204 "No Content" 40] in
  let data := JSON.Obj [("message", JSON.Str "Test webhook from admin panel")] in
  let payload := {| Envelope.event := "test"; Envelope.timestamp := Date.toISOString (clock w);
                    Envelope.organizationId := "org1"; Envelope.data := data |} in
  let out := WebhookRoutes.post_webhook_test "org1" (Some (JSON.Str EmptyString)) w in
  requests (snd out) = requests w ++ [request_for Scenario.tenant payload 1 (clock w)] /\
  fst out =
    match fst (WebhookService.deliverWebhook Scenario.tenant payload 1 w) with
    | Ok r => Ok (WebhookRoutes.Tested "Webhook test completed successfully"
                    (status r) (responseTime r))
    | Throw e => Ok (WebhookRoutes.BadRequest "Webhook test failed"
                       ("Webhook test failed: " +:+ e))
    end.
Proof.
  intros w.
  apply (X22_post_webhook_test_sends_one_test_event "org1" (Some (JSON.Str EmptyString)) w
           Scenario.tenant); reflexivity.
Defined.

(** ** The headers of an attempt *)

Lemma set_custom_last (n : string) (hs : list Header) : forall obj : gmap string string,
  foldl WebhookService.set_custom obj hs !! n =
  match last (List.filter (fun h => String.eqb (name h) n) hs) with
  | Some h => if String.eqb n "__proto__" then obj !! n else Some (value h)
  | None => obj !! n
  end.
Proof.
  induction hs as [|h hs IH] using rev_ind; intros obj; [reflexivity |].
  rewrite foldl_app, List.filter_app. cbn. unfold WebhookService.set_custom at 1.
  destruct (String.eqb_spec (name h) n) as [-> | Hne].
  - rewrite last_snoc. destruct (String.eqb_spec n "__proto__") as [Hp | Hp].
    + rewrite IH. destruct (last _); [|reflexivity].
      destruct (String.eqb_spec n "__proto__"); [reflexivity | contradiction].
    + apply lookup_insert_eq.
  - rewrite app_nil_r. destruct (String.eqb (name h) "__proto__"); [apply IH |].
    rewrite lookup_insert_ne by exact Hne. apply IH.
Qed.

(** X23: the headers object of an attempt.  Under every name it holds the
    value of the last custom header of that name, also under the six names
    of the defaults, the signature's among them; under a name no custom
    header uses it holds the default, if there is one; and nothing is ever
    sent under [__proto__]. *)
Theorem X23_custom_headers_replace_the_defaults
    (c : WebhookConfig) (payload : Envelope.t) (attempt : Z) (n : string) :
  let signature := WebhookService.generateSignature (Envelope.to_json payload) (secret c) in
  WebhookService.request_headers c payload attempt !! n =
  if String.eqb n "__proto__" then None
  else match last (List.filter (fun h => String.eqb (name h) n) (headers c)) with
       | Some h => Some (value h)
       | None => WebhookService.default_headers signature payload attempt !! n
       end.
Proof.
  cbv zeta. unfold WebhookService.request_headers. rewrite set_custom_last.
  destruct (String.eqb_spec n "__proto__") as [-> | _]; [|reflexivity].
  now destruct (last _).
Qed.

(** ** The signature's format *)

Lemma hex_digit_is_hex (n : Z) : is_hex_digit (Bytes.hex_digit n) = true.
Proof.
  unfold Bytes.hex_digit.
  assert (H : 0 <= Z.land n 15 < 16).
  { change 15 with (Z.ones 4). rewrite Z.land_ones by lia. apply Z.mod_pos_bound. lia. }
  assert (Hn : (Z.to_nat (Z.land n 15) < 16)%nat) by lia.
  revert Hn. generalize (Z.to_nat (Z.land n 15)). intros k Hk.
  do 16 (destruct k as [|k]; [reflexivity |]). lia.
Qed.

Lemma hex_is_hex (bs : list Z) :
  forallb is_hex_digit (String.list_ascii_of_string (Bytes.hex bs)) = true.
Proof.
  induction bs as [|b bs IH]; [reflexivity |].
  cbn [Bytes.hex String.list_ascii_of_string forallb]. now rewrite !hex_digit_is_hex, IH.
Qed.

(** X24: whatever the payload and the secret, the signature is ['sha256=']
    followed by exactly 64 digits, each one of [0-9a-f]. *)
Theorem X24_signature_is_sha256_and_64_lowercase_hex_digits
    (payload : JSON.value) (secret : string) :
  exists digest : string,
    WebhookService.generateSignature payload secret = "sha256=" +:+ digest /\
    String.length digest = 64%nat /\
    forallb is_hex_digit (String.list_ascii_of_string digest) = true.
Proof.
  eexists. split; [reflexivity |]. split; [|apply hex_is_hex].
  now rewrite hex_length, hmac_length.
Qed.

(** ** The dispatcher's footprint *)

Lemma sendWebhook_footprint (self : WebhookService.t) (org ev : string) (data : JSON.value)
    (w : World) :
  let w' := snd (WebhookService.sendWebhook self org ev data w) in
  configs w' = configs w /\
  (if WebhookService.redisEnabled self
   then requests w' = requests w /\ (queue w' = queue w \/ exists job, queue w' = queue w ++ [job])
   else queue w' = queue w /\
        (requests w' = requests w \/ exists req, requests w' = requests w ++ [req])).
Proof.
  cbv zeta.
  unfold WebhookService.sendWebhook, try_catch, bind, Mongo.findOne, Mongo.query, ret, throw,
    now, console_error, WebhookService.queue_add.
  destruct (mongoUp w); [|destruct (WebhookService.redisEnabled self); cbn; auto].
  destruct (List.find _ (configs w)) as [c|];
    [|destruct (WebhookService.redisEnabled self); cbn; auto].
  destruct (negb _); [destruct (WebhookService.redisEnabled self); cbn; auto |].
  destruct (WebhookService.redisEnabled self).
  - destruct (redisUp w); cbn; eauto.
  - pose proof (deliverWebhook_world c (WebhookService.envelope ev (clock w) org data) 1 w)
      as (Hc & _ & Hq & Hr).
    destruct (WebhookService.deliverWebhook _ _ _ w) as [[r|e] w1]; cbn in *; eauto.
Qed.

(** X25: the notification of the card upload never rejects, whatever
    [sendWebhook] does, and never writes to the configurations.  With a
    queue it issues no request itself and adds at most one job; without a
    queue it adds no job and issues at most one request, that is, a failed
    direct delivery is not retried whatever [maxRetries] says. *)
Theorem X25_card_upload_notification_is_fire_and_forget
    (service : WebhookService.t) (org : string) (data : JSON.value) (w : World) :
  let out := cards_notify service org data w in
  fst out = Ok tt /\
  configs (snd out) = configs w /\
  (if WebhookService.redisEnabled service
   then requests (snd out) = requests w /\
        (queue (snd out) = queue w \/ exists job, queue (snd out) = queue w ++ [job])
   else queue (snd out) = queue w /\
        (requests (snd out) = requests w \/
         exists req, requests (snd out) = requests w ++ [req])).
Proof.
  cbv zeta. pose proof (sendWebhook_footprint service org "cardExtracted" data w) as H.
  cbv zeta in H. unfold cards_notify, try_catch, bind, ret, console_error.
  destruct (WebhookService.sendWebhook service org "cardExtracted" data w) as [[r|e] w'];
    cbn in *; (split; [reflexivity | exact H]).
Qed.
